(** * categorizer.py: grouping the files of a folder by modification date

    A shallow embedding of [bin/categorizer.py] and of the part of the
    Python runtime it calls ([dict], [str], [os], [os.path], [datetime]),
    followed by the properties of the script.

    Layout:
    - [Py]: strings, the insertion-ordered [dict], the outcome of a call;
    - [OS]: a POSIX directory tree with path resolution, [os.path.*],
      [os.listdir], [os.mkdir], [os.rename];
    - [Datetime]: [datetime.fromtimestamp(...).strftime(...)] for the
      numeric directives;
    - [Categorizer]: the functions of the script, in a state monad over the
      file system and the trace of observable events. *)

From Stdlib Require Import List String Ascii ZArith Bool Lia Permutation.
Import ListNotations.
Open Scope string_scope.
Open Scope list_scope.

(* ================================================================== *)
(** * Python values *)
(* ================================================================== *)

Module Py.

(** ** [str] *)

(** [s.startswith(p)]. *)
Definition startswith (s p : string) : bool := String.prefix p s.

(** [s.endswith(c)] for a one-character suffix. *)
Fixpoint endswith (s : string) (c : ascii) : bool :=
  match s with
  | EmptyString => false
  | String a EmptyString => Ascii.eqb a c
  | String _ s' => endswith s' c
  end.

(** [x in l] for a list of strings. *)
Definition str_in (x : string) (l : list string) : bool :=
  existsb (String.eqb x) l.

(** ** [dict] with [str] keys

    A Python [dict] iterates in insertion order, and assigning to a key
    that is already present keeps the key where it is. The association
    list holds the items in iteration order. *)

Definition dict (V : Type) : Type := list (string * V).

(** [d.get(k)], [None] when the key is absent. *)
Fixpoint dict_find {V} (d : dict V) (k : string) : option V :=
  match d with
  | [] => None
  | (k', v) :: d' => if String.eqb k k' then Some v else dict_find d' k
  end.

(** [d.get(k, default)]. *)
Definition dict_get {V} (d : dict V) (k : string) (default : V) : V :=
  match dict_find d k with
  | Some v => v
  | None => default
  end.

(** [d[k] = v]: overwrite in place, or append a new item. *)
Fixpoint dict_set {V} (d : dict V) (k : string) (v : V) : dict V :=
  match d with
  | [] => [(k, v)]
  | (k', v') :: d' =>
      if String.eqb k k' then (k', v) :: d' else (k', v') :: dict_set d' k v
  end.

(** [d.pop(k, None)] (used by the directory model, not by the script). *)
Fixpoint dict_del {V} (d : dict V) (k : string) : dict V :=
  match d with
  | [] => []
  | (k', v') :: d' =>
      if String.eqb k k' then dict_del d' k else (k', v') :: dict_del d' k
  end.

(** [d.keys()] and [d.items()] are the list itself. *)
Definition keys {V} (d : dict V) : list string := map fst d.

(** ** How a call ends

    A call returns a value, leaves the process through [exit(code)]
    ([SystemExit]), or raises. The script catches nothing, so of an
    exception only its class is kept. *)

Inductive exn : Type :=
| OSError       (* FileNotFoundError, NotADirectoryError, FileExistsError, ... *)
| ValueError.   (* also OverflowError: a time that [datetime] cannot hold *)

Inductive outcome (A : Type) : Type :=
| Ok (a : A)
| Exit (code : Z)
| Raise (e : exn).
Arguments Ok {A} a.
Arguments Exit {A} code.
Arguments Raise {A} e.

End Py.

(* ================================================================== *)
(** * The file system seen through [os] and [os.path] (POSIX) *)
(* ================================================================== *)

Module OS.
Import Py.

(** ** The directory tree

    A regular file, a directory or anything else that [stat] reports
    (FIFO, socket, device). Every node carries its last-modified time in
    seconds since the epoch. A directory holds its entries in the order
    in which [os.listdir] enumerates them. Symbolic links are not
    modelled. *)

#[warnings="-register-all"] Inductive node : Type :=
| File (mtime : Z)
| Dir (mtime : Z) (entries : dict node)
| Special (mtime : Z).

(** A resolved position: the names from the root down. *)
Definition location : Type := list string.

Record world : Type := mkWorld {
  root : node;          (* the tree at "/" *)
  cwd : location;       (* the working directory of the process *)
  now : Z               (* the clock that stamps modified directories *)
}.

Definition node_mtime (n : node) : Z :=
  match n with
  | File m => m
  | Dir m _ => m
  | Special m => m
  end.

Definition is_file (n : node) : bool :=
  match n with File _ => true | _ => false end.

Definition is_dir (n : node) : bool :=
  match n with Dir _ _ => true | _ => false end.

(** The node at a location. *)
Fixpoint get (n : node) (p : location) : option node :=
  match p with
  | [] => Some n
  | c :: p' =>
      match n with
      | Dir _ es =>
          match dict_find es c with
          | Some ch => get ch p'
          | None => None
          end
      | _ => None
      end
  end.

(** Rewrite the node at a location; [None] when the location is absent
    or the rewrite refuses. *)
Fixpoint update_at (p : location) (f : node -> option node) (n : node)
  : option node :=
  match p with
  | [] => f n
  | c :: p' =>
      match n with
      | Dir m es =>
          match dict_find es c with
          | Some ch =>
              match update_at p' f ch with
              | Some ch' => Some (Dir m (dict_set es c ch'))
              | None => None
              end
          | None => None
          end
      | _ => None
      end
  end.

(** What a directory write does to the directory node. *)
Definition dir_set (t : Z) (name : string) (child : node) (n : node)
  : option node :=
  match n with
  | Dir _ es => Some (Dir t (dict_set es name child))
  | _ => None
  end.

Definition dir_remove (t : Z) (name : string) (n : node) : option node :=
  match n with
  | Dir _ es => Some (Dir t (dict_del es name))
  | _ => None
  end.

(** ** Path strings *)

Definition sep : ascii := "/"%char.

(** [p.split("/")]: never empty, [""] around leading, trailing and
    doubled separators. *)
Fixpoint split_path (p : string) : list string :=
  match p with
  | EmptyString => [EmptyString]
  | String c p' =>
      if Ascii.eqb c sep then EmptyString :: split_path p'
      else match split_path p' with
           | x :: xs => String c x :: xs
           | [] => [String c EmptyString]
           end
  end.

(** [posixpath.join(a, b)]: an absolute [b] replaces [a]; otherwise [b]
    is appended, after a separator unless [a] is empty or ends in one. *)
Definition os_path_join (a b : string) : string :=
  if startswith b "/" then b
  else if orb (String.eqb a "") (endswith a sep) then a ++ b
  else a ++ "/" ++ b.

(** [posixpath.join(a, b, c)] folds [join] from the left. *)
Definition os_path_join3 (a b c : string) : string :=
  os_path_join (os_path_join a b) c.

(** ** Resolution

    Every component is looked up in a directory: an empty component or
    ["."] stays, [".."] goes to the parent (the root is its own parent),
    a name must be an entry. *)
Fixpoint walk (r : node) (cur : location) (comps : list string)
  : option location :=
  match comps with
  | [] => Some cur
  | c :: cs =>
      match get r cur with
      | Some (Dir _ es) =>
          if orb (String.eqb c "") (String.eqb c ".") then walk r cur cs
          else if String.eqb c ".." then walk r (removelast cur) cs
          else match dict_find es c with
               | Some _ => walk r (cur ++ [c]) cs
               | None => None
               end
      | _ => None
      end
  end.

Definition start_of (w : world) (p : string) : location :=
  if startswith p "/" then [] else cwd w.

(** The location a path names, when [stat] succeeds on it. The empty
    path names nothing. *)
Definition resolve (w : world) (p : string) : option location :=
  if String.eqb p "" then None
  else walk (root w) (start_of w p) (split_path p).

Definition stat (w : world) (p : string) : option node :=
  match resolve w p with
  | Some l => get (root w) l
  | None => None
  end.

Fixpoint drop_empty (l : list string) : list string :=
  match l with
  | [] => []
  | c :: l' => if String.eqb c "" then drop_empty l' else l
  end.

(** The directory and the final name of a path that is to be created,
    removed or replaced, and whether separators trail the name. ["."],
    [".."] and the root have no final name. *)
Definition locate (w : world) (p : string)
  : option (location * string * bool) :=
  if String.eqb p "" then None
  else
    let rcomps := rev (split_path p) in
    match drop_empty rcomps with
    | [] => None
    | c :: rinit =>
        if orb (String.eqb c ".") (String.eqb c "..") then None
        else match walk (root w) (start_of w p) (rev rinit) with
             | Some d =>
                 Some (d, c,
                       negb (Nat.eqb (List.length rcomps)
                               (S (List.length rinit))))
             | None => None
             end
    end.

(** ** [os.path] queries *)

Definition os_path_exists (w : world) (p : string) : bool :=
  match stat w p with Some _ => true | None => false end.

Definition os_path_isfile (w : world) (p : string) : bool :=
  match stat w p with Some n => is_file n | None => false end.

Definition os_path_isdir (w : world) (p : string) : bool :=
  match stat w p with Some n => is_dir n | None => false end.

(** [os.path.getmtime(p)], [OSError] when [stat] fails. *)
Definition os_path_getmtime (w : world) (p : string) : option Z :=
  option_map node_mtime (stat w p).

(** [os.listdir(p)]: the entry names of a directory, [OSError]
    otherwise. *)
Definition os_listdir (w : world) (p : string) : option (list string) :=
  match stat w p with
  | Some (Dir _ es) => Some (keys es)
  | _ => None
  end.

(** ** [os.mkdir] and [os.rename] *)

Definition set_root (w : world) (r : node) : world :=
  mkWorld r (cwd w) (now w).

(** [os.mkdir(p)]: the parent must be a directory without an entry of
    that name. *)
Definition os_mkdir (w : world) (p : string) : option world :=
  match locate w p with
  | Some (d, name, _) =>
      match get (root w) (d ++ [name]) with
      | Some _ => None
      | None =>
          option_map (set_root w)
            (update_at d (dir_set (now w) name (Dir (now w) [])) (root w))
      end
  | None => None
  end.

Fixpoint is_prefix (a b : location) : bool :=
  match a, b with
  | [], _ => true
  | x :: a', y :: b' => andb (String.eqb x y) (is_prefix a' b')
  | _ :: _, [] => false
  end.

Definition location_eqb (a b : location) : bool :=
  andb (is_prefix a b) (is_prefix b a).

(** May a node replace what is at the destination? A directory only an
    empty directory, anything else only a non-directory. *)
Definition may_replace (n : node) (target : option node) : bool :=
  match target with
  | None => true
  | Some (Dir _ es) =>
      andb (is_dir n) (match es with [] => true | _ => false end)
  | Some _ => negb (is_dir n)
  end.

(** [os.rename(src, dst)] as [rename(2)]: the source must exist, the
    parent of the destination must be a directory, a directory is not
    moved below itself, trailing separators are for directories only. A
    rename onto itself does nothing. *)
Definition os_rename (w : world) (src dst : string) : option world :=
  match locate w src, locate w dst with
  | Some (ds, ns, ts), Some (dd, nd, td) =>
      match get (root w) (ds ++ [ns]), get (root w) dd with
      | Some n, Some (Dir _ _) =>
          if andb (orb ts td) (negb (is_dir n)) then None
          else if location_eqb (ds ++ [ns]) (dd ++ [nd]) then Some w
          else if andb (is_dir n) (is_prefix (ds ++ [ns]) dd) then None
          else if may_replace n (get (root w) (dd ++ [nd])) then
            match update_at ds (dir_remove (now w) ns) (root w) with
            | Some r1 =>
                option_map (set_root w)
                  (update_at dd (dir_set (now w) nd n) r1)
            | None => None
            end
          else None
      | _, _ => None
      end
  | _, _ => None
  end.

End OS.

(* ================================================================== *)
(** * [datetime.datetime.fromtimestamp(t).strftime(fmt)] *)
(* ================================================================== *)

Module Datetime.

Record datetime : Type := mkDatetime {
  year : Z; month : Z; day : Z; hour : Z; minute : Z; second : Z
}.

(** The proleptic Gregorian date of a day count from 1970-01-01,
    through 400-year eras that start on 1 March. *)
Definition civil_from_days (days : Z) : Z * Z * Z :=
  let z := (days + 719468)%Z in
  let era := (z / 146097)%Z in
  let doe := (z - era * 146097)%Z in
  let yoe := ((doe - doe / 1460 + doe / 36524 - doe / 146096) / 365)%Z in
  let doy := (doe - (365 * yoe + yoe / 4 - yoe / 100))%Z in
  let mp := ((5 * doy + 2) / 153)%Z in
  let d := (doy - (153 * mp + 2) / 5 + 1)%Z in
  let m := (if (mp <? 10)%Z then mp + 3 else mp - 9)%Z in
  let y := (yoe + era * 400 + (if (m <=? 2)%Z then 1 else 0))%Z in
  (y, m, d).

(** Local time at a fixed offset from UTC, in seconds. *)
Definition fromtimestamp (utc_offset : Z) (t : Z) : datetime :=
  let l := (t + utc_offset)%Z in
  let '(y, m, d) := civil_from_days (l / 86400) in
  let sod := (l mod 86400)%Z in
  mkDatetime y m d (sod / 3600) ((sod mod 3600) / 60) (sod mod 60).

Definition digit (n : Z) : ascii :=
  ascii_of_nat (48 + Z.to_nat (n mod 10)).

(** Decimal with exactly [width] digits, zero padded. *)
Fixpoint pad (width : nat) (n : Z) : string :=
  match width with
  | O => ""
  | S w => pad w (n / 10) ++ String (digit n) ""
  end.

(** The numeric directives; an unknown one is copied, as glibc does. *)
Definition directive (c : ascii) (d : datetime) : string :=
  if Ascii.eqb c "Y" then pad 4 (year d)
  else if Ascii.eqb c "m" then pad 2 (month d)
  else if Ascii.eqb c "d" then pad 2 (day d)
  else if Ascii.eqb c "H" then pad 2 (hour d)
  else if Ascii.eqb c "M" then pad 2 (minute d)
  else if Ascii.eqb c "S" then pad 2 (second d)
  else if Ascii.eqb c "%" then "%"
  else String "%" (String c "").

Fixpoint strftime (fmt : string) (d : datetime) : string :=
  match fmt with
  | EmptyString => ""
  | String c rest =>
      if Ascii.eqb c "%" then
        match rest with
        | String x rest' => directive x d ++ strftime rest' d
        | EmptyString => "%"
        end
      else String c (strftime rest d)
  end.

(** The formatter of a process whose local time zone is UTC. *)
Definition strftime_utc (t : Z) (fmt : string) : string :=
  strftime fmt (fromtimestamp 0 t).

(** [datetime] holds the years 1 to 9999; [fromtimestamp] raises on a
    time outside them. *)
Definition formats_utc (t : Z) (fmt : string) : bool :=
  let y := year (fromtimestamp 0 t) in
  ((1 <=? y) && (y <=? 9999))%Z.

End Datetime.

(* ================================================================== *)
(** * The script *)
(* ================================================================== *)

Module Categorizer.
Import Py OS.

(** ** Observable events and the state of a run *)

Inductive event : Type :=
| EvPrint (line : string)            (* a line on standard output *)
| EvMkdir (path : string)            (* a successful [os.mkdir] *)
| EvRename (src dst : string).       (* a successful [os.rename] *)

Definition is_print (e : event) : bool :=
  match e with EvPrint _ => true | _ => false end.

Definition is_mutation (e : event) : bool := negb (is_print e).

Record state : Type := mkState {
  fs : world;
  trace : list event
}.

(** ** The monad of the script: state, [exit] and exceptions *)

Definition M (A : Type) : Type := state -> outcome A * state.

Definition ret {A} (a : A) : M A := fun s => (Ok a, s).

Definition bind {A B} (m : M A) (k : A -> M B) : M B :=
  fun s =>
    match m s with
    | (Ok a, s') => k a s'
    | (Exit c, s') => (Exit c, s')
    | (Raise e, s') => (Raise e, s')
    end.

Notation "x <- m ;; k" := (bind m (fun x => k))
  (at level 61, m at next level, right associativity).
Notation "m ;; k" := (bind m (fun _ => k))
  (at level 61, right associativity).

(** [for x in xs: body(x)]. *)
Fixpoint for_each {A} (xs : list A) (body : A -> M unit) : M unit :=
  match xs with
  | [] => ret tt
  | x :: xs' => body x ;; for_each xs' body
  end.

Definition emit (e : event) : M unit :=
  fun s => (Ok tt, mkState (fs s) (trace s ++ [e])).

Definition print (line : string) : M unit := emit (EvPrint line).

Definition exit {A} (code : Z) : M A := fun s => (Exit code, s).

Definition raise {A} (e : exn) : M A := fun s => (Raise e, s).

(** A query of the file system. *)
Definition ask {A} (q : world -> A) : M A := fun s => (Ok (q (fs s)), s).

(** A query that raises when the system call fails. *)
Definition ask_or_raise {A} (q : world -> option A) : M A :=
  fun s =>
    match q (fs s) with
    | Some a => (Ok a, s)
    | None => (Raise OSError, s)
    end.

(** A system call that changes the file system; it leaves an event when it
    succeeds and raises when it fails. *)
Definition mutate (op : world -> option world) (e : event) : M unit :=
  fun s =>
    match op (fs s) with
    | Some w' => (Ok tt, mkState w' (trace s ++ [e]))
    | None => (Raise OSError, s)
    end.

Definition mkdir (p : string) : M unit :=
  mutate (fun w => os_mkdir w p) (EvMkdir p).

Definition rename (src dst : string) : M unit :=
  mutate (fun w => os_rename w src dst) (EvRename src dst).

(** ** The functions of [categorizer.py] *)

Section Script.

(** [datetime.datetime.fromtimestamp(t).strftime(fmt)] in the time zone
    of the process, for a last-modified time [t] in whole seconds:
    [formats t fmt] tells whether the expression returns, and then
    [strftime t fmt] is the string it returns. Where [formats t fmt] is
    false the expression raises (a time outside the years that [datetime]
    holds, a pattern that the platform rejects). *)
Variable strftime : Z -> string -> string.
Variable formats : Z -> string -> bool.

Definition system_files : list string :=
  ["desktop.ini"; "thumbs.db"; ".DS_Store"].

(** The condition of the comprehension of [get_file_list]. *)
Definition listed (w : world) (pwd f : string) : bool :=
  os_path_isfile w (os_path_join pwd f)
  && negb (str_in f system_files)
  && negb (startswith f ".").

Definition get_file_list (pwd : string) : M (list string) :=
  e <- ask (fun w => os_path_exists w pwd) ;;
  if negb e then
    print ("No such folder: " ++ pwd) ;; exit 1
  else
    f <- ask (fun w => os_path_isfile w pwd) ;;
    if f then
      print (pwd ++ " is a file.") ;; exit 1
    else
      names <- ask_or_raise (fun w => os_listdir w pwd) ;;
      ask (fun w => filter (listed w pwd) names).

Definition get_file_time_str (pwd file_name date_format : string)
  : M string :=
  t <- ask_or_raise (fun w => os_path_getmtime w (os_path_join pwd file_name)) ;;
  if formats t date_format then ret (strftime t date_format)
  else raise ValueError.

Definition generate_time_string (date_format : string) : string :=
  date_format.

(** The loop of [group_by_date], from a given [file_group]. *)
Fixpoint group_loop (pwd : string) (file_list : list string)
  (date_format : string) (file_group : dict (list string))
  : M (dict (list string)) :=
  match file_list with
  | [] => ret file_group
  | file :: rest =>
      time_string <- get_file_time_str pwd file date_format ;;
      group_loop pwd rest date_format
        (dict_set file_group time_string
           (dict_get file_group time_string [] ++ [file]))
  end.

Definition group_by_date (pwd : string) (file_list : list string)
  (date_format : string) : M (dict (list string)) :=
  group_loop pwd file_list date_format [].

Definition print_group_info (group_info : dict (list string)) : M unit :=
  for_each group_info (fun '(time_string, files) =>
    print (time_string ++ ":") ;;
    for_each files (fun file => print ("  - " ++ file))).

(** The body of the outer loop of [do_move]. *)
Definition move_group (pwd : string) (item : string * list string)
  : M unit :=
  let '(time_string, files) := item in
  e <- ask (fun w => os_path_exists w (os_path_join pwd time_string)) ;;
  (if negb e then mkdir (os_path_join pwd time_string) else ret tt) ;;
  for_each files (fun file =>
    rename (os_path_join pwd file) (os_path_join3 pwd time_string file)).

Definition do_move (pwd : string) (group_info : dict (list string))
  : M unit :=
  for_each group_info (move_group pwd).

(** The parsed command line. *)
Record args : Type := mkArgs {
  folder_path : string;
  date_string : string;
  simulation : bool
}.

Definition default_args : args := mkArgs "." "%Y%m" false.

(** What the rest of the system does to the file system while the
    script runs: [env] acts on the file system between the two statements
    of the script, and leaves no event. *)
Definition interfere (env : world -> world) : M unit :=
  fun s => (Ok tt, mkState (env (fs s)) (trace s)).

(** The block under [if __name__ == "__main__"], after [parse_args], in
    an environment that acts between its two statements. *)
Definition main_env (env : world -> world) (a : args) : M unit :=
  let pwd := folder_path a in
  file_list <- get_file_list pwd ;;
  group_info <- group_by_date pwd file_list (date_string a) ;;
  print_group_info group_info ;;
  interfere env ;;
  if negb (simulation a) then
    file_list' <- get_file_list pwd ;;
    group_info' <- group_by_date pwd file_list' (date_string a) ;;
    do_move pwd group_info'
  else ret tt.

(** The script with the directory to itself (section 5 of the
    specification): nothing else touches the file system. *)
Definition main (a : args) : M unit := main_env (fun w => w) a.

(** ** The two statements of [main], named

    A fresh listing, grouped; the statement that previews; the statement
    that moves. *)
Definition scan (a : args) : M (dict (list string)) :=
  file_list <- get_file_list (folder_path a) ;;
  group_by_date (folder_path a) file_list (date_string a).

Definition preview_phase (a : args) : M unit :=
  group_info <- scan a ;; print_group_info group_info.

Definition move_phase (a : args) : M unit :=
  if negb (simulation a) then
    group_info <- scan a ;; do_move (folder_path a) group_info
  else ret tt.

End Script.

End Categorizer.

(* ================================================================== *)
(** * Vocabulary of the properties *)
(* ================================================================== *)

Module Spec.
Import Py OS Categorizer.

(** The Group Key of a file: its formatted last-modified time, when
    [stat] succeeds on it and the time can be formatted. *)
Definition time_key (strftime : Z -> string -> string)
  (formats : Z -> string -> bool) (w : world)
  (pwd date_format file : string) : option string :=
  match os_path_getmtime w (os_path_join pwd file) with
  | Some t => if formats t date_format then Some (strftime t date_format)
              else None
  | None => None
  end.

(** The exception that [get_file_time_str] raises on a file, if any. *)
Definition time_error (formats : Z -> string -> bool) (w : world)
  (pwd date_format file : string) : option exn :=
  match os_path_getmtime w (os_path_join pwd file) with
  | Some t => if formats t date_format then None else Some ValueError
  | None => Some OSError
  end.

(** The first exception met along a list of files, and the exception
    that the loop of [group_by_date] ends with when it meets one. *)
Fixpoint first_error (err : string -> option exn) (file_list : list string)
  : option exn :=
  match file_list with
  | [] => None
  | f :: rest =>
      match err f with
      | Some e => Some e
      | None => first_error err rest
      end
  end.

Definition raised (formats : Z -> string -> bool) (w : world)
  (pwd date_format : string) (file_list : list string) : exn :=
  match first_error (time_error formats w pwd date_format) file_list with
  | Some e => e
  | None => OSError
  end.

Definition opt_eqb (o : option string) (k : string) : bool :=
  match o with
  | Some k' => String.eqb k' k
  | None => false
  end.

(** The input files that carry a given key, in input order. *)
Definition members_of (key : string -> option string) (k : string)
  (file_list : list string) : list string :=
  filter (fun f => opt_eqb (key f) k) file_list.

(** Every value once, at the place of its first occurrence. *)
Fixpoint first_occurrences (l : list string) : list string :=
  match l with
  | [] => []
  | x :: l' => x :: remove string_dec x (first_occurrences l')
  end.

(** The keys met while scanning the list, failures skipped. *)
Fixpoint keys_met (key : string -> option string) (file_list : list string)
  : list string :=
  match file_list with
  | [] => []
  | f :: rest =>
      match key f with
      | Some k => k :: keys_met key rest
      | None => keys_met key rest
      end
  end.

(** One iteration of the loop of [group_by_date] on the dictionary, and
    the loop as a function of the keys. *)
Definition add_file (g : dict (list string)) (k file : string)
  : dict (list string) :=
  dict_set g k (dict_get g k [] ++ [file]).

Fixpoint regroup (key : string -> option string) (file_list : list string)
  (g : dict (list string)) : option (dict (list string)) :=
  match file_list with
  | [] => Some g
  | f :: rest =>
      match key f with
      | Some k => regroup key rest (add_file g k f)
      | None => None
      end
  end.

(** The lines of the preview of a grouping. *)
Definition render (g : dict (list string)) : list string :=
  flat_map (fun item : string * list string =>
              (fst item ++ ":")%string
                :: map (fun f => ("  - " ++ f)%string) (snd item)) g.

(** The events a run has added to the trace of its initial state. *)
Definition added (s s' : state) (evs : list event) : Prop :=
  trace s' = trace s ++ evs.

(** A computation that neither leaves the process through [exit] nor
    prints: whatever it adds to the trace is a change of the file
    system. *)
Definition moves_only {A} (m : M A) : Prop :=
  forall s o s', m s = (o, s') ->
    (forall c, o <> Exit c)
    /\ exists evs, added s s' evs /\ forallb is_mutation evs = true.

(** The target directory of a run: the path resolves to the location
    [T], where a directory with the entries [E] sits. *)
Definition target_is (w : world) (pwd : string) (T : location)
  (E : dict node) : Prop :=
  resolve w pwd = Some T /\ exists m, get (root w) T = Some (Dir m E).

Definition is_dir_opt (o : option node) : bool :=
  match o with Some n => is_dir n | None => false end.

Definition is_file_opt (o : option node) : bool :=
  match o with Some n => is_file n | None => false end.

(** A rewrite under which every directory stays a directory. *)
Definition keeps_dirs (n n' : node) : Prop :=
  forall q, is_dir_opt (get n q) = true -> is_dir_opt (get n' q) = true.

(** The entry [y] of the subdirectory [x] of a directory. *)
Definition entry2 (E : dict node) (x y : string) : option node :=
  match dict_find E x with
  | Some (Dir _ Ex) => dict_find Ex y
  | _ => None
  end.

(** The (key, file) pairs of a grouping, in the order of the moves. *)
Definition pairs_of (g : dict (list string)) : list (string * string) :=
  flat_map (fun item : string * list string =>
              map (pair (fst item)) (snd item)) g.

(** The system calls of a successful [do_move] on a grouping, read off
    the file system [w0] in which it starts: for every group a [mkdir]
    when the key does not name a directory there, then the renames of
    the members in order. *)
Definition rename_event (pwd k f : string) : event :=
  EvRename (os_path_join pwd f) (os_path_join3 pwd k f).

Definition group_events (w0 : world) (pwd : string)
  (item : string * list string) : list event :=
  (if os_path_isdir w0 (os_path_join pwd (fst item)) then []
   else [EvMkdir (os_path_join pwd (fst item))])
  ++ map (rename_event pwd (fst item)) (snd item).

Definition move_events (w0 : world) (pwd : string) (g : dict (list string))
  : list event :=
  flat_map (group_events w0 pwd) g.

(** The invariant of the loops of [do_move], on the entries [E0] of the
    target directory when the loops start and [E] now: the files still to
    move are where they were; a moved file is in the directory of its key
    and its old name bears no regular file; directories stay, and a new
    directory bears the key of a group already entered. *)
Definition move_inv (E0 E : dict node) (pending : list string)
  (placed : list (string * string)) (entered : list string) : Prop :=
  (forall f, In f pending ->
     exists t, dict_find E0 f = Some (File t)
               /\ dict_find E f = Some (File t))
  /\ (forall k f, In (k, f) placed ->
        exists t, dict_find E0 f = Some (File t)
                  /\ entry2 E k f = Some (File t))
  /\ (forall k f, In (k, f) placed ->
        is_file_opt (dict_find E f) = false)
  /\ (forall x, is_dir_opt (dict_find E0 x) = true ->
                is_dir_opt (dict_find E x) = true)
  /\ (forall x, is_dir_opt (dict_find E x) = true ->
                is_dir_opt (dict_find E0 x) = true \/ In x entered).

(** "Every file originally present in the target directory is, after
    the run, a file at [pwd/<key>/<name>] and no file at [pwd/<name>]",
    for the run of [main] on [a] from [s] to [s']. *)
Definition every_file_relocated (strftime : Z -> string -> string)
  (a : args) (s s' : state) : Prop :=
  forall names f t,
    os_listdir (fs s) (folder_path a) = Some names ->
    In f names ->
    stat (fs s) (os_path_join (folder_path a) f) = Some (File t) ->
    os_path_isfile (fs s')
      (os_path_join3 (folder_path a) (strftime t (date_string a)) f) = true
    /\ os_path_isfile (fs s') (os_path_join (folder_path a) f) = false.

(** A name that a directory entry can bear: not empty, not ["."] or
    [".."], free of the separator. *)
Fixpoint has_sep (s : string) : bool :=
  match s with
  | EmptyString => false
  | String c s' => orb (Ascii.eqb c sep) (has_sep s')
  end.

Definition valid_name (s : string) : bool :=
  negb (String.eqb s "") && negb (String.eqb s ".")
  && negb (String.eqb s "..") && negb (has_sep s).

Fixpoint nodupb (l : list string) : bool :=
  match l with
  | [] => true
  | x :: l' => negb (str_in x l') && nodupb l'
  end.

(** A well-formed tree: in every directory the names are valid and
    pairwise distinct. *)
Fixpoint wf_node (n : node) : bool :=
  match n with
  | Dir _ es =>
      nodupb (keys es)
      && forallb (fun e => valid_name (fst e) && wf_node (snd e)) es
  | _ => true
  end.

Definition wf_world (w : world) : bool := wf_node (root w).

End Spec.

(* ================================================================== *)
(** * A folder to run the script on *)
(* ================================================================== *)

Module Examples.
Import Py OS Categorizer.

Definition t_jan : Z := 1705312800.   (* 2024-01-15 10:00:00 UTC *)
Definition t_feb : Z := 1708423445.   (* 2024-02-20 10:04:05 UTC *)

(** [/home/u]: four visible files, a hidden file, a metadata file, a
    subdirectory and a FIFO. *)
Definition folder : dict node :=
  [("a.txt", File t_jan); ("b.txt", File t_feb); (".hidden", File t_jan);
   ("desktop.ini", File t_jan); ("Thumbs.db", File t_feb);
   ("c.txt", File t_jan); ("sub", Dir 7 [("inner.txt", File t_jan)]);
   ("pipe", Special 3)].

Definition w0 : world :=
  mkWorld (Dir 0 [("home", Dir 1 [("u", Dir 5 folder)])]) ["home"] 99.

Definition s0 : state := mkState w0 [].

(** The same file system after some output. *)
Definition s0' : state := mkState w0 [EvPrint "earlier output"].

Definition listing0 : list string :=
  ["a.txt"; "b.txt"; "Thumbs.db"; "c.txt"].

Definition grouping0 : dict (list string) :=
  [("202401", ["a.txt"; "c.txt"]); ("202402", ["b.txt"; "Thumbs.db"])].

Definition args_move : args := mkArgs "u" "%Y%m" false.
Definition args_simulation : args := mkArgs "u" "%Y%m" true.
Definition args_missing : args := mkArgs "nowhere" "%Y%m" false.
Definition args_dot : args := mkArgs "u" "." false.

(** A folder in which a file bears the name of another file's key:
    [202402] was modified in January, [b.txt] in February. *)
Definition w_named_like_key : world :=
  mkWorld
    (Dir 0 [("home",
             Dir 1 [("u", Dir 5 [("202402", File t_jan);
                                 ("b.txt", File t_feb)])])])
    ["home"] 99.

Definition grouping_later : dict (list string) :=
  [("202401", ["a.txt"; "c.txt"]);
   ("202402", ["b.txt"; "Thumbs.db"; "d.txt"])].

(** The example folder after another process has added [d.txt]. *)
Definition w_later : world :=
  mkWorld
    (Dir 0 [("home", Dir 1 [("u", Dir 6 (folder ++ [("d.txt", File t_feb)]))])])
    ["home"] 99.

(** The folder of the scenario of the specification: [a.txt] of January
    2024 and [b.txt] of February 2024. *)
Definition w_two_files : world :=
  mkWorld
    (Dir 0 [("home",
             Dir 1 [("u", Dir 5 [("a.txt", File t_jan);
                                 ("b.txt", File t_feb)])])])
    ["home"] 99.

End Examples.

(* ================================================================== *)
(** * Vocabulary of the runs that fail part-way *)
(* ================================================================== *)

Module MoverSpec.
Import Py OS Categorizer Spec.

(** Entries that are neither a file to move ([L]) nor the key of a
    group ([K]) are what they were. *)
Definition frame_inv (E0 E : dict node) (L K : list string) : Prop :=
  forall x, ~ In x L -> ~ In x K -> dict_find E x = dict_find E0 x.

(** In a directory that was there from the start, an entry that does not
    bear the name of a file to move is what it was. *)
Definition subdir_inv (E0 E : dict node) (L : list string) : Prop :=
  forall k y, ~ In y L -> is_dir_opt (dict_find E0 k) = true ->
              entry2 E k y = entry2 E0 k y.

Definition names_valid (E : dict node) : Prop :=
  forall x n, dict_find E x = Some n -> valid_name x = true.

(** Locations that are neither in the directory at [T] nor on the way to
    it hold what they held. *)
Definition same_outside (T : location) (r r' : node) : Prop :=
  forall q, is_prefix T q = false -> is_prefix q T = false ->
            get r' q = get r q.

(** The state of a run of [do_move] that started in [w0] on the target
    directory at [T] with the entries [E0]: [pending] files are still to
    move, [placed] pairs are moved. *)
Definition run_inv (w0 : world) (pwd : string) (T : location)
  (E0 : dict node) (L K : list string) (w : world)
  (pending : list string) (placed : list (string * string)) : Prop :=
  exists E,
    target_is w pwd T E
    /\ move_inv E0 E pending placed K
    /\ frame_inv E0 E L K
    /\ subdir_inv E0 E L
    /\ names_valid E
    /\ same_outside T (root w0) (root w)
    /\ cwd w = cwd w0.

(** The arguments of a run with the simulation flag set or cleared. *)
Definition with_simulation (a : args) (b : bool) : args :=
  mkArgs (folder_path a) (date_string a) b.

Definition printed (tr : list event) : list event := filter is_print tr.

(** A list is the beginning of another. *)
Definition starts_with {A} (l l' : list A) : Prop :=
  exists rest, l' = l ++ rest.

End MoverSpec.

Module MoreExamples.
Import Py OS Categorizer Examples.

(** A folder in which the key of February names a FIFO, beside a
    folder [/home/v] that the run has no business with. *)
Definition w_blocked : world :=
  mkWorld
    (Dir 0 [("home",
             Dir 1 [("u", Dir 5 [("a.txt", File t_jan);
                                 ("b.txt", File t_feb);
                                 (".hidden", File t_feb);
                                 ("202402", Special 3)]);
                    ("v", Dir 2 [("keep.txt", File t_jan)])])])
    ["home"] 99.

Definition s_blocked : state := mkState w_blocked [].

Definition listing_blocked : list string := ["a.txt"; "b.txt"].

Definition grouping_blocked : dict (list string) :=
  [("202401", ["a.txt"]); ("202402", ["b.txt"])].




End MoreExamples.

(* ================================================================== *)
(** * Properties *)
(* ================================================================== *)

Import Py OS Categorizer Spec.

(** ** The insertion-ordered dictionary *)

Section DictFacts.
Context {V : Type}.
Implicit Types (d : dict V) (k : string) (v : V).

Lemma dict_find_set_same d k v : dict_find (dict_set d k v) k = Some v.
Proof.
  induction d as [|[k' v'] d IH]; simpl.
  - now rewrite String.eqb_refl.
  - destruct (String.eqb k k') eqn:E; simpl; rewrite E; auto.
Qed.

Lemma dict_find_set_other d k k' v :
  k' <> k -> dict_find (dict_set d k v) k' = dict_find d k'.
Proof.
  intros N. induction d as [|[k0 v0] d IH]; simpl.
  - destruct (String.eqb k' k) eqn:E; auto.
    apply String.eqb_eq in E. contradiction.
  - destruct (String.eqb k k0) eqn:E; simpl.
    + apply String.eqb_eq in E. subst k0.
      destruct (String.eqb k' k) eqn:E'; auto.
      apply String.eqb_eq in E'. contradiction.
    + now rewrite IH.
Qed.

Lemma dict_find_del_same d k : dict_find (dict_del d k) k = None.
Proof.
  induction d as [|[k' v'] d IH]; simpl; auto.
  destruct (String.eqb k k') eqn:E; simpl; auto. now rewrite E.
Qed.

Lemma dict_find_del_other d k k' :
  k' <> k -> dict_find (dict_del d k) k' = dict_find d k'.
Proof.
  intros N. induction d as [|[k0 v0] d IH]; simpl; auto.
  destruct (String.eqb k k0) eqn:E; simpl.
  - apply String.eqb_eq in E. subst k0.
    destruct (String.eqb k' k) eqn:E'; auto.
    apply String.eqb_eq in E'. contradiction.
  - now rewrite IH.
Qed.

Lemma dict_find_in d k v : dict_find d k = Some v -> In (k, v) d.
Proof.
  induction d as [|[k' v'] d IH]; simpl; [discriminate|].
  destruct (String.eqb k k') eqn:E.
  - apply String.eqb_eq in E. intros [= ->]. subst. now left.
  - intros H. right. auto.
Qed.

Lemma dict_find_none d k : dict_find d k = None <-> ~ In k (keys d).
Proof.
  induction d as [|[k' v'] d IH]; simpl.
  - tauto.
  - destruct (String.eqb k k') eqn:E.
    + apply String.eqb_eq in E. subst. split; [discriminate|]. tauto.
    + apply String.eqb_neq in E. rewrite IH. split.
      * intros H [H1|H1]; [congruence|auto].
      * tauto.
Qed.

Lemma in_dict_find d k v :
  NoDup (keys d) -> In (k, v) d -> dict_find d k = Some v.
Proof.
  induction d as [|[k' v'] d IH]; simpl; [tauto|].
  intros ND [H|H].
  - injection H as -> ->. now rewrite String.eqb_refl.
  - inversion ND; subst.
    destruct (String.eqb k k') eqn:E.
    + apply String.eqb_eq in E. subst k'.
      exfalso. apply H2. unfold keys. apply in_map_iff. now exists (k, v).
    + auto.
Qed.

Lemma keys_set d k v :
  keys (dict_set d k v) =
  if in_dec string_dec k (keys d) then keys d else keys d ++ [k].
Proof.
  induction d as [|[k' v'] d IH]; simpl; auto.
  destruct (String.eqb k k') eqn:E; simpl.
  - apply String.eqb_eq in E. subst.
    destruct (string_dec k' k'); [|congruence].
    destruct (in_dec string_dec k' (keys d)); auto.
  - apply String.eqb_neq in E. rewrite IH.
    destruct (string_dec k' k); [congruence|].
    destruct (in_dec string_dec k (keys d)); auto.
Qed.

End DictFacts.

(** ** First occurrences *)

Lemma first_occurrences_in l x : In x (first_occurrences l) <-> In x l.
Proof.
  induction l as [|y l IH]; simpl; [tauto|].
  split.
  - intros [H|H]; auto.
    apply in_remove in H. right. apply IH, H.
  - intros [H|H]; auto.
    destruct (string_dec y x); auto.
    right. apply in_in_remove; [congruence|]. now apply IH.
Qed.

Lemma first_occurrences_nodup l : NoDup (first_occurrences l).
Proof.
  induction l as [|y l IH]; simpl; constructor.
  - apply remove_In.
  - clear -IH. induction IH as [|z m Hz _ IHm]; simpl; [constructor|].
    destruct (string_dec y z); auto.
    constructor; auto. intros H. apply in_remove in H. tauto.
Qed.

Lemma first_occurrences_snoc l k :
  first_occurrences (l ++ [k]) =
  if in_dec string_dec k l then first_occurrences l
  else first_occurrences l ++ [k].
Proof.
  induction l as [|y l IH]; simpl; auto.
  rewrite IH. destruct (string_dec y k) as [->|N].
  - destruct (in_dec string_dec k l); auto.
    rewrite remove_app. simpl.
    destruct (string_dec k k); [|congruence]. now rewrite app_nil_r.
  - destruct (in_dec string_dec k l); auto.
    rewrite remove_app. simpl.
    destruct (string_dec y k); [congruence|]. reflexivity.
Qed.

(** ** The loop of [group_by_date] as a function of the keys *)

Section Regroup.
Variable key : string -> option string.

Lemma regroup_snoc files f g :
  regroup key (files ++ [f]) g =
  match regroup key files g with
  | Some g' =>
      match key f with
      | Some k => Some (add_file g' k f)
      | None => None
      end
  | None => None
  end.
Proof.
  revert g. induction files as [|x files IH]; intros g; simpl.
  - destruct (key f); reflexivity.
  - destruct (key x); auto.
Qed.

Lemma keys_met_snoc files f :
  keys_met key (files ++ [f]) =
  keys_met key files ++ match key f with Some k => [k] | None => [] end.
Proof.
  induction files as [|x files IH]; simpl.
  - destruct (key f); reflexivity.
  - rewrite IH. destruct (key x); reflexivity.
Qed.

Lemma members_of_snoc k files f :
  members_of key k (files ++ [f]) =
  members_of key k files ++ (if opt_eqb (key f) k then [f] else []).
Proof.
  unfold members_of. rewrite filter_app. simpl.
  destruct (opt_eqb (key f) k); reflexivity.
Qed.

Lemma members_of_in k files f :
  In f (members_of key k files) <-> In f files /\ key f = Some k.
Proof.
  unfold members_of. rewrite filter_In. unfold opt_eqb.
  destruct (key f) as [k'|]; split; intros [H1 H2]; split; auto;
    try discriminate.
  - apply String.eqb_eq in H2. congruence.
  - injection H2 as ->. apply String.eqb_refl.
Qed.

Lemma concat_add_file g k f :
  Permutation (List.concat (map snd (add_file g k f)))
              (List.concat (map snd g) ++ [f]).
Proof.
  unfold add_file, dict_get.
  induction g as [|[k' v'] g IH]; simpl.
  - reflexivity.
  - destruct (String.eqb k k') eqn:E; simpl.
    + rewrite <- !app_assoc. apply Permutation_app_head.
      apply Permutation_app_comm.
    + rewrite <- app_assoc. apply Permutation_app_head. exact IH.
Qed.

(** What the loop has built once it ends: the keys in order of first
    occurrence, under each key its files in input order, and the files
    of all groups together are the input. *)
Lemma regroup_spec files g :
  regroup key files [] = Some g ->
  keys g = first_occurrences (keys_met key files)
  /\ (forall k, dict_find g k =
                match members_of key k files with
                | [] => None
                | l => Some l
                end)
  /\ Permutation (List.concat (map snd g)) files
  /\ Forall (fun f => key f <> None) files.
Proof.
  revert g. induction files as [|f files IH] using rev_ind; intros g.
  - simpl. intros [= <-]. repeat split; auto.
  - rewrite regroup_snoc.
    destruct (regroup key files []) as [g'|] eqn:R; [|discriminate].
    destruct (key f) as [k0|] eqn:K; [|discriminate].
    intros [= <-].
    destruct (IH g' eq_refl) as (Hk & Hf & Hp & Ha).
    split; [|split; [|split]].
    + unfold add_file. rewrite keys_set, keys_met_snoc, K.
      rewrite first_occurrences_snoc, Hk.
      destruct (in_dec string_dec k0 (first_occurrences (keys_met key files)))
        as [I|I];
      destruct (in_dec string_dec k0 (keys_met key files)) as [J|J];
        auto; exfalso.
      * apply J. now apply first_occurrences_in.
      * apply I. now apply first_occurrences_in.
    + intros k. rewrite members_of_snoc, K. simpl.
      destruct (String.eqb k0 k) eqn:E.
      * apply String.eqb_eq in E. subst k0.
        unfold add_file. rewrite dict_find_set_same.
        unfold dict_get. rewrite Hf.
        destruct (members_of key k files); reflexivity.
      * apply String.eqb_neq in E. unfold add_file.
        rewrite dict_find_set_other by congruence.
        rewrite app_nil_r. apply Hf.
    + rewrite concat_add_file. now apply Permutation_app_tail.
    + apply Forall_app. split; auto. constructor; [congruence|constructor].
Qed.

Lemma regroup_total files g :
  Forall (fun f => key f <> None) files ->
  exists g', regroup key files g = Some g'.
Proof.
  intros H. revert g. induction H as [|f files Hf _ IH]; intros g; simpl.
  - now exists g.
  - destruct (key f); [apply IH|congruence].
Qed.

Lemma regroup_keys_nodup files g :
  regroup key files [] = Some g -> NoDup (keys g).
Proof.
  intros H. destruct (regroup_spec _ _ H) as (-> & _).
  apply first_occurrences_nodup.
Qed.

Lemma regroup_item files g k ms :
  regroup key files [] = Some g ->
  (In (k, ms) g <-> ms = members_of key k files /\ ms <> []).
Proof.
  intros H. pose proof (regroup_keys_nodup _ _ H) as ND.
  destruct (regroup_spec _ _ H) as (_ & Hf & _).
  split.
  - intros I. apply in_dict_find in I; auto. rewrite Hf in I.
    destruct (members_of key k files); [discriminate|].
    injection I as <-. split; [reflexivity|discriminate].
  - intros [-> N]. apply dict_find_in. rewrite Hf.
    destruct (members_of key k files); congruence.
Qed.

End Regroup.

(** ** Runs of the read-only functions *)

Section ScriptFacts.
Variable strftime : Z -> string -> string.
Variable formats : Z -> string -> bool.

Lemma time_key_or_error pwd fmt w f :
  match time_key strftime formats w pwd fmt f,
        time_error formats w pwd fmt f with
  | Some _, None => True
  | None, Some _ => True
  | _, _ => False
  end.
Proof.
  unfold time_key, time_error.
  destruct (os_path_getmtime w (os_path_join pwd f)) as [t|]; [|exact I].
  destruct (formats t fmt); exact I.
Qed.

Lemma get_file_time_str_run pwd file fmt s :
  get_file_time_str strftime formats pwd file fmt s =
  (match time_key strftime formats (fs s) pwd fmt file with
   | Some k => Ok k
   | None => Raise (raised formats (fs s) pwd fmt [file])
   end, s).
Proof.
  unfold get_file_time_str, time_key, raised, time_error, bind,
    ask_or_raise, ret, raise. simpl.
  destruct (os_path_getmtime (fs s) (os_path_join pwd file)) as [t|];
    [|reflexivity].
  destruct (formats t fmt); reflexivity.
Qed.

Lemma group_loop_run pwd files fmt g s :
  group_loop strftime formats pwd files fmt g s =
  (match regroup (time_key strftime formats (fs s) pwd fmt) files g with
   | Some g' => Ok g'
   | None => Raise (raised formats (fs s) pwd fmt files)
   end, s).
Proof.
  revert g. induction files as [|f files IH]; intros g; simpl.
  - reflexivity.
  - unfold bind. rewrite get_file_time_str_run.
    pose proof (time_key_or_error pwd fmt (fs s) f) as KE.
    unfold raised in *. simpl.
    destruct (time_key strftime formats (fs s) pwd fmt f) as [k|];
      destruct (time_error formats (fs s) pwd fmt f) as [e|];
      try contradiction; [|reflexivity].
    apply IH.
Qed.

Lemma group_by_date_run pwd files fmt s :
  group_by_date strftime formats pwd files fmt s =
  (match regroup (time_key strftime formats (fs s) pwd fmt) files [] with
   | Some g' => Ok g'
   | None => Raise (raised formats (fs s) pwd fmt files)
   end, s).
Proof. apply group_loop_run. Qed.

Lemma group_by_date_ok pwd files fmt s g s' :
  group_by_date strftime formats pwd files fmt s = (Ok g, s') ->
  s' = s /\ regroup (time_key strftime formats (fs s) pwd fmt) files [] = Some g.
Proof.
  rewrite group_by_date_run.
  destruct (regroup _ files []); intros [= <- <-]; auto.
Qed.

Lemma time_key_defined pwd fmt w f :
  time_key strftime formats w pwd fmt f <> None <->
  exists t, os_path_getmtime w (os_path_join pwd f) = Some t
            /\ formats t fmt = true.
Proof.
  unfold time_key.
  destruct (os_path_getmtime w (os_path_join pwd f)) as [t|].
  - destruct (formats t fmt) eqn:F; split.
    + intros _. now exists t.
    + discriminate.
    + congruence.
    + intros (t' & [= <-] & H). congruence.
  - split; [congruence|]. intros (t & H & _). discriminate.
Qed.

(** C1. For every input list and format pattern the Grouping that
    [group_by_date] returns holds exactly the input: the member lists put
    together are a rearrangement of the input list (nothing added, nothing
    left out, nothing repeated), and every input file name is a member of
    exactly one Group. And it does return a Grouping whenever, for every
    input file, [stat] succeeds and the last-modified time can be
    formatted. *)
Theorem group_by_date_partitions_input pwd file_list date_format s :
  (Forall (fun f => exists t,
                      os_path_getmtime (fs s) (os_path_join pwd f) = Some t
                      /\ formats t date_format = true)
          file_list ->
   exists g, group_by_date strftime formats pwd file_list date_format s
             = (Ok g, s))
  /\
  (forall g s',
     group_by_date strftime formats pwd file_list date_format s = (Ok g, s') ->
     Permutation (List.concat (map snd g)) file_list
     /\ (forall f, In f file_list ->
           exists! k, exists ms, In (k, ms) g /\ In f ms)
     /\ (forall k ms f, In (k, ms) g -> In f ms -> In f file_list)).
Proof.
  split.
  - intros H. rewrite group_by_date_run.
    destruct (regroup_total (time_key strftime formats (fs s) pwd date_format)
                file_list []) as [g Hg].
    + eapply Forall_impl; [|exact H]. intros f. apply time_key_defined.
    + exists g. now rewrite Hg.
  - intros g s' H. apply group_by_date_ok in H. destruct H as [_ R].
    set (key := time_key strftime formats (fs s) pwd date_format) in *.
    destruct (regroup_spec key _ _ R) as (_ & _ & Hp & Ha).
    split; [exact Hp|]. split.
    + intros f Hf.
      rewrite Forall_forall in Ha. specialize (Ha f Hf).
      destruct (key f) as [k|] eqn:K; [|congruence].
      exists k. split.
      * exists (members_of key k file_list). split.
        -- apply (regroup_item key _ _ _ _ R). split; auto.
           intros E.
           assert (I : In f (members_of key k file_list))
             by (apply members_of_in; auto).
           rewrite E in I. exact I.
        -- apply members_of_in; auto.
      * intros k' (ms & I & J).
        apply (regroup_item key _ _ _ _ R) in I. destruct I as [-> _].
        apply members_of_in in J. destruct J as [_ J]. congruence.
    + intros k ms f I J.
      apply (regroup_item key _ _ _ _ R) in I. destruct I as [-> _].
      apply members_of_in in J. tauto.
Qed.

(** C6. In the Grouping returned by [group_by_date] the keys are pairwise
    distinct and stand in the order in which they first occur during the
    scan of the input list, and the members of every Group are the input
    files with that key in input order. *)
Theorem group_by_date_keeps_scan_order pwd file_list date_format s g s' :
  group_by_date strftime formats pwd file_list date_format s = (Ok g, s') ->
  let key := time_key strftime formats (fs s) pwd date_format in
  NoDup (keys g)
  /\ map key file_list = map Some (keys_met key file_list)
  /\ keys g = first_occurrences (keys_met key file_list)
  /\ (forall k ms, In (k, ms) g -> ms = members_of key k file_list).
Proof.
  intros H key. apply group_by_date_ok in H. destruct H as [_ R].
  fold key in R.
  destruct (regroup_spec key _ _ R) as (Hk & _ & _ & Ha).
  split; [eapply regroup_keys_nodup; eauto|].
  split; [|split; [exact Hk|]].
  - clear -Ha. induction Ha as [|f l Hf _ IH]; simpl; auto.
    destruct (key f); [|congruence]. simpl. now rewrite IH.
  - intros k ms I. apply (regroup_item key _ _ _ _ R) in I. tauto.
Qed.

(** C7. [group_by_date] reads the file system and changes nothing: two
    invocations with the same directory path, input list and format
    pattern, in states where the input files have the same last-modified
    times, end alike and return the same Grouping, keys and members in
    the same order; in particular an invocation that follows a successful
    one in the state it left returns the same Grouping again. *)
Theorem group_by_date_deterministic pwd file_list date_format s1 s2 :
  (forall f, In f file_list ->
     os_path_getmtime (fs s1) (os_path_join pwd f) =
     os_path_getmtime (fs s2) (os_path_join pwd f)) ->
  fst (group_by_date strftime formats pwd file_list date_format s1) =
  fst (group_by_date strftime formats pwd file_list date_format s2)
  /\ snd (group_by_date strftime formats pwd file_list date_format s1) = s1
  /\ (forall g s',
        group_by_date strftime formats pwd file_list date_format s1 = (Ok g, s') ->
        group_by_date strftime formats pwd file_list date_format s' = (Ok g, s')).
Proof.
  intros H. rewrite !group_by_date_run. simpl.
  assert (Ek : forall f, In f file_list ->
             time_key strftime formats (fs s1) pwd date_format f =
             time_key strftime formats (fs s2) pwd date_format f).
  { intros f I. unfold time_key. now rewrite (H f I). }
  assert (Ee : forall f, In f file_list ->
             time_error formats (fs s1) pwd date_format f =
             time_error formats (fs s2) pwd date_format f).
  { intros f I. unfold time_error. now rewrite (H f I). }
  split; [|split].
  - assert (E : forall g,
               regroup (time_key strftime formats (fs s1) pwd date_format)
                 file_list g
               = regroup (time_key strftime formats (fs s2) pwd date_format)
                   file_list g).
    { clear Ee. induction file_list as [|f l IH]; intros g; simpl; auto.
      rewrite (Ek f) by now left.
      destruct (time_key strftime formats (fs s2) pwd date_format f); auto.
      apply IH; intros f' Hf'; [apply H|apply Ek]; now right. }
    assert (E' : raised formats (fs s1) pwd date_format file_list =
                 raised formats (fs s2) pwd date_format file_list).
    { unfold raised. clear E Ek.
      induction file_list as [|f l IH]; simpl; auto.
      rewrite (Ee f) by now left.
      destruct (time_error formats (fs s2) pwd date_format f); auto.
      apply IH; intros f' Hf'; [apply H|apply Ee]; now right. }
    now rewrite E, E'.
  - reflexivity.
  - intros g s' E.
    destruct (regroup _ file_list []) as [g'|] eqn:R; [|discriminate].
    injection E as <- <-. rewrite group_by_date_run. now rewrite R.
Qed.

End ScriptFacts.

(** ** Path strings and resolution *)

Lemma append_assoc (a b c : string) :
  ((a ++ b) ++ c)%string = (a ++ (b ++ c))%string.
Proof. induction a as [|x a IH]; simpl; [reflexivity|now rewrite IH]. Qed.

Lemma append_nonempty (a b : string) :
  a <> "" -> (a ++ b)%string <> "".
Proof. destruct a; simpl; congruence. Qed.

Lemma startswith_cons (c : ascii) (s : string) :
  startswith (String c s) "/" = Ascii.eqb c sep.
Proof.
  unfold startswith. cbn [String.prefix].
  destruct (ascii_dec "/" c) as [<-|N].
  - destruct s; reflexivity.
  - symmetry. apply Ascii.eqb_neq. unfold sep. congruence.
Qed.

Lemma startswith_append (a b : string) :
  a <> "" -> startswith (a ++ b) "/" = startswith a "/".
Proof.
  destruct a as [|c a]; [congruence|]. intros _.
  cbn [String.append]. now rewrite !startswith_cons.
Qed.

Lemma endswith_inv (a : string) :
  endswith a sep = true -> exists a', a = (a' ++ "/")%string.
Proof.
  induction a as [|c a IH]; simpl; [discriminate|].
  destruct a as [|d a].
  - intros H. apply Ascii.eqb_eq in H. subst c. now exists "".
  - intros H. destruct (IH H) as [a' E]. exists (String c a').
    simpl. now rewrite <- E.
Qed.

Lemma split_path_nonempty (p : string) : split_path p <> [].
Proof.
  destruct p as [|c p]; simpl; [discriminate|].
  destruct (Ascii.eqb c sep); [discriminate|].
  destruct (split_path p); discriminate.
Qed.

Lemma split_path_app (a b : string) :
  split_path (a ++ String sep b) = split_path a ++ split_path b.
Proof.
  induction a as [|c a IH]; simpl.
  - reflexivity.
  - destruct (Ascii.eqb c sep).
    + now rewrite IH.
    + rewrite IH. pose proof (split_path_nonempty a) as N.
      destruct (split_path a); [congruence|reflexivity].
Qed.

Lemma split_path_name (k : string) :
  has_sep k = false -> split_path k = [k].
Proof.
  induction k as [|c k IH]; simpl; [reflexivity|].
  intros H. apply orb_false_iff in H. destruct H as [H1 H2].
  rewrite H1, (IH H2). reflexivity.
Qed.

Lemma valid_name_inv (k : string) :
  valid_name k = true ->
  k <> "" /\ k <> "." /\ k <> ".." /\ has_sep k = false.
Proof.
  unfold valid_name. rewrite !andb_true_iff, !negb_true_iff.
  rewrite !String.eqb_neq. tauto.
Qed.

Lemma valid_name_relative (k : string) :
  valid_name k = true -> startswith k "/" = false.
Proof.
  intros H. apply valid_name_inv in H. destruct H as (_ & _ & _ & H).
  destruct k as [|c k]; [reflexivity|].
  simpl in H. apply orb_false_iff in H. destruct H as [H _].
  now rewrite startswith_cons.
Qed.

Lemma get_app (n : node) (p q : location) :
  get n (p ++ q) =
  match get n p with Some n' => get n' q | None => None end.
Proof.
  revert n. induction p as [|c p IH]; intros n; simpl; [reflexivity|].
  destruct n as [|m es|]; auto.
  destruct (dict_find es c); auto.
Qed.

Lemma walk_app (r : node) (cur : location) (xs ys : list string) :
  walk r cur (xs ++ ys) =
  match walk r cur xs with Some c => walk r c ys | None => None end.
Proof.
  revert cur. induction xs as [|x xs IH]; intros cur; simpl; [reflexivity|].
  destruct (get r cur) as [[|m es|]|]; auto.
  destruct (String.eqb x "" || String.eqb x "."); auto.
  destruct (String.eqb x ".."); auto.
  destruct (dict_find es x); auto.
Qed.

Lemma walk_name (r : node) (c : location) (k : string) :
  valid_name k = true ->
  walk r c [k] =
  match get r c with
  | Some (Dir _ es) =>
      match dict_find es k with
      | Some _ => Some (c ++ [k])
      | None => None
      end
  | _ => None
  end.
Proof.
  intros H. apply valid_name_inv in H. destruct H as (H1 & H2 & H3 & _).
  apply String.eqb_neq in H1, H2, H3. simpl. rewrite H1, H2, H3. simpl.
  reflexivity.
Qed.

(** [join(a, k)] for a name [k]: the components of [a], then [k]. *)
Lemma split_join (a k : string) :
  a <> "" -> valid_name k = true ->
  os_path_join a k <> ""
  /\ startswith (os_path_join a k) "/" = startswith a "/"
  /\ exists X, split_path (os_path_join a k) = X ++ [k]
       /\ forall r start c, walk r start (split_path a) = Some c ->
                            walk r start X = Some c.
Proof.
  intros Ha Hk. pose proof (valid_name_relative k Hk) as Hr.
  pose proof (valid_name_inv k Hk) as (_ & _ & _ & Hs).
  unfold os_path_join. rewrite Hr.
  apply String.eqb_neq in Ha. rewrite Ha. apply String.eqb_neq in Ha. simpl.
  destruct (endswith a sep) eqn:E.
  - split; [now apply append_nonempty|].
    split; [now apply startswith_append|].
    destruct (endswith_inv a E) as [a' ->].
    exists (split_path a'). split.
    + rewrite append_assoc. simpl.
      rewrite split_path_app, (split_path_name k Hs). reflexivity.
    + intros r start c. rewrite split_path_app, walk_app. simpl.
      destruct (walk r start (split_path a')) as [c'|]; [|discriminate].
      destruct (get r c') as [[|m es|]|]; congruence.
  - split; [now apply append_nonempty|].
    split; [now apply startswith_append|].
    exists (split_path a). split.
    + simpl. rewrite split_path_app, (split_path_name k Hs). reflexivity.
    + auto.
Qed.

Lemma resolve_join (w : world) (a k : string) (c : location) :
  a <> "" -> valid_name k = true -> resolve w a = Some c ->
  resolve w (os_path_join a k) = walk (root w) c [k].
Proof.
  intros Ha Hk Hc.
  destruct (split_join a k Ha Hk) as (N & S & X & EX & HX).
  unfold resolve in *. apply String.eqb_neq in N, Ha. rewrite N.
  rewrite Ha in Hc. unfold start_of in *. rewrite S, EX, walk_app.
  now rewrite (HX _ _ _ Hc).
Qed.

(** [stat] on an entry of a directory that resolves. *)
Lemma stat_join (w : world) (a k : string) (c : location) :
  a <> "" -> valid_name k = true -> resolve w a = Some c ->
  stat w (os_path_join a k) =
  match get (root w) c with
  | Some (Dir _ es) => dict_find es k
  | _ => None
  end.
Proof.
  intros Ha Hk Hc. unfold stat.
  rewrite (resolve_join w a k c Ha Hk Hc), (walk_name _ _ _ Hk).
  destruct (get (root w) c) as [[|m es|]|] eqn:G; auto.
  destruct (dict_find es k) eqn:F; auto.
  rewrite get_app, G. simpl. now rewrite F.
Qed.

Lemma locate_join (w : world) (a k : string) (c : location) :
  a <> "" -> valid_name k = true -> resolve w a = Some c ->
  locate w (os_path_join a k) = Some (c, k, false).
Proof.
  intros Ha Hk Hc.
  destruct (split_join a k Ha Hk) as (N & S & X & EX & HX).
  pose proof (valid_name_inv k Hk) as (K1 & K2 & K3 & _).
  unfold locate, resolve in *. apply String.eqb_neq in N, Ha, K1, K2, K3.
  rewrite N. rewrite Ha in Hc. unfold start_of in *.
  rewrite S, EX, rev_app_distr. simpl. rewrite K1, K2, K3. simpl.
  rewrite rev_involutive, (HX _ _ _ Hc). rewrite Nat.eqb_refl. reflexivity.
Qed.

Lemma resolve_nonempty (w : world) (p : string) (c : location) :
  resolve w p = Some c -> p <> "".
Proof. unfold resolve. intros H ->. discriminate. Qed.

(** ** Well-formed trees *)

Lemma str_in_iff (x : string) (l : list string) :
  str_in x l = true <-> In x l.
Proof.
  unfold str_in. rewrite existsb_exists. split.
  - intros (y & I & E). apply String.eqb_eq in E. now subst.
  - intros I. exists x. split; [exact I|apply String.eqb_refl].
Qed.

Lemma str_in_false (x : string) (l : list string) :
  str_in x l = false <-> ~ In x l.
Proof.
  rewrite <- str_in_iff. destruct (str_in x l); split; congruence.
Qed.

Lemma nodupb_NoDup (l : list string) : nodupb l = true -> NoDup l.
Proof.
  induction l as [|x l IH]; simpl; [constructor|].
  rewrite andb_true_iff, negb_true_iff, str_in_false.
  intros [H1 H2]. constructor; auto.
Qed.

Lemma wf_dir_inv (m : Z) (es : dict node) :
  wf_node (Dir m es) = true ->
  NoDup (keys es)
  /\ (forall k, In k (keys es) -> valid_name k = true)
  /\ (forall k ch, dict_find es k = Some ch -> wf_node ch = true).
Proof.
  cbn [wf_node]. rewrite andb_true_iff. intros [H1 H2].
  split; [now apply nodupb_NoDup|].
  rewrite forallb_forall in H2. split.
  - intros k I. apply in_map_iff in I. destruct I as (e & <- & I).
    specialize (H2 e I). apply andb_true_iff in H2. tauto.
  - intros k ch F. apply dict_find_in in F.
    specialize (H2 _ F). apply andb_true_iff in H2. tauto.
Qed.

Lemma wf_get (n n' : node) (p : location) :
  wf_node n = true -> get n p = Some n' -> wf_node n' = true.
Proof.
  revert n. induction p as [|c p IH]; intros n W; simpl.
  - now intros [= <-].
  - destruct n as [|m es|]; try discriminate.
    destruct (dict_find es c) as [ch|] eqn:F; [|discriminate].
    apply IH. eapply wf_dir_inv; eauto.
Qed.

Lemma dict_find_keys {V} (d : dict V) (k : string) (v : V) :
  dict_find d k = Some v -> In k (keys d).
Proof.
  intros F. apply dict_find_in in F. unfold keys.
  apply in_map_iff. now exists (k, v).
Qed.

Lemma stat_inv (w : world) (p : string) (n : node) :
  stat w p = Some n ->
  exists c, resolve w p = Some c /\ get (root w) c = Some n /\ p <> "".
Proof.
  unfold stat. destruct (resolve w p) as [c|] eqn:R; [|discriminate].
  intros G. exists c. repeat split; auto. eapply resolve_nonempty; eauto.
Qed.

Lemma filter_keys_split {V} (es : dict V) (p r : string -> bool)
  (q : string * V -> bool) :
  (forall e, In e es -> p (fst e) = q e && r (fst e)) ->
  filter p (keys es) = filter r (keys (filter q es)).
Proof.
  induction es as [|e es IH]; simpl; intros H; [reflexivity|].
  rewrite (H e) by now left.
  assert (IH' : filter p (keys es) = filter r (keys (filter q es)))
    by (apply IH; intros e' I; apply H; now right).
  destruct (q e); simpl; [|exact IH'].
  destruct (r (fst e)); now rewrite IH'.
Qed.

(** ** The Directory Lister *)

Lemma get_file_list_run (pwd : string) (s : state) :
  get_file_list pwd s =
  if negb (os_path_exists (fs s) pwd) then
    (Exit 1,
     mkState (fs s) (trace s ++ [EvPrint ("No such folder: " ++ pwd)]))
  else if os_path_isfile (fs s) pwd then
    (Exit 1, mkState (fs s) (trace s ++ [EvPrint (pwd ++ " is a file.")]))
  else
    match os_listdir (fs s) pwd with
    | Some names => (Ok (filter (listed (fs s) pwd) names), s)
    | None => (Raise OSError, s)
    end.
Proof.
  unfold get_file_list, bind, ask, ask_or_raise, print, emit, exit.
  destruct (os_path_exists (fs s) pwd); simpl; [|reflexivity].
  destruct (os_path_isfile (fs s) pwd); simpl; [reflexivity|].
  destruct (os_listdir (fs s) pwd); reflexivity.
Qed.

(** C4. On a directory that holds regular files, subdirectories, hidden
    files and the OS-metadata names, [get_file_list] returns, in listing
    order and without duplicates, exactly the names of the entries that
    are regular files, are none of [desktop.ini], [thumbs.db], [.DS_Store]
    (compared as they are spelt) and do not start with ["."]; a
    subdirectory is not listed and what is inside it plays no part. *)
Theorem get_file_list_filters (pwd : string) (s : state) (m : Z)
  (es : dict node) :
  wf_world (fs s) = true ->
  stat (fs s) pwd = Some (Dir m es) ->
  exists l,
    get_file_list pwd s = (Ok l, s)
    /\ l = filter (fun f => negb (str_in f system_files)
                            && negb (startswith f "."))
             (keys (filter (fun e => is_file (snd e)) es))
    /\ NoDup l
    /\ (forall f, In f l <->
          (exists t, dict_find es f = Some (File t))
          /\ ~ In f ["desktop.ini"; "thumbs.db"; ".DS_Store"]
          /\ startswith f "." = false)
    /\ (forall f m' es', dict_find es f = Some (Dir m' es') -> ~ In f l).
Proof.
  intros W S. destruct (stat_inv _ _ _ S) as (c & R & G & Np).
  assert (Wd : wf_node (Dir m es) = true) by (eapply wf_get; eauto).
  destruct (wf_dir_inv _ _ Wd) as (ND & Hv & _).
  assert (Hl : forall f, In f (keys es) ->
             listed (fs s) pwd f =
             match dict_find es f with Some n => is_file n | None => false end
             && negb (str_in f system_files) && negb (startswith f ".")).
  { intros f I. unfold listed, os_path_isfile.
    rewrite (stat_join _ _ _ _ Np (Hv f I) R), G. reflexivity. }
  exists (filter (listed (fs s) pwd) (keys es)).
  assert (Hin : forall f, In f (filter (listed (fs s) pwd) (keys es)) <->
             (exists t, dict_find es f = Some (File t))
             /\ ~ In f ["desktop.ini"; "thumbs.db"; ".DS_Store"]
             /\ startswith f "." = false).
  { intros f. rewrite filter_In. split.
    - intros [I L]. rewrite (Hl f I) in L.
      apply andb_true_iff in L. destruct L as [L L3].
      apply andb_true_iff in L. destruct L as [L1 L2].
      apply negb_true_iff in L2, L3. apply str_in_false in L2.
      destruct (dict_find es f) as [[t| |]|]; try discriminate.
      split; [now exists t|]. split; assumption.
    - intros ((t & F) & N & H).
      assert (I : In f (keys es)) by (eapply dict_find_keys; eauto).
      split; [exact I|]. rewrite (Hl f I), F, H.
      apply str_in_false in N. unfold system_files. now rewrite N. }
  split; [|split; [|split; [|split]]].
  - rewrite get_file_list_run. unfold os_path_exists, os_path_isfile,
      os_listdir. rewrite S. reflexivity.
  - apply filter_keys_split. intros [k n] I. simpl.
    rewrite Hl by (apply in_map_iff; now exists (k, n)).
    now rewrite (in_dict_find _ _ _ ND I), andb_assoc.
  - now apply NoDup_filter.
  - exact Hin.
  - intros f m' es' F I. apply Hin in I. destruct I as ((t & F') & _).
    congruence.
Qed.

(** ** The Reporter *)

Lemma bind_print {B} (line : string) (k : unit -> M B) (s : state) :
  bind (print line) k s = k tt (mkState (fs s) (trace s ++ [EvPrint line])).
Proof. reflexivity. Qed.

Lemma bind_ok {A B} (m : M A) (k : A -> M B) (s s' : state) (a : A) :
  m s = (Ok a, s') -> bind m k s = k a s'.
Proof. unfold bind. now intros ->. Qed.

Lemma for_each_print (pre : string) (files : list string) (s : state) :
  for_each files (fun file => print (pre ++ file)) s =
  (Ok tt,
   mkState (fs s)
     (trace s ++ map EvPrint (map (fun f => (pre ++ f)%string) files))).
Proof.
  revert s. induction files as [|f files IH]; intros s; simpl.
  - unfold ret. rewrite app_nil_r. now destruct s.
  - rewrite bind_print, IH. simpl. now rewrite <- app_assoc.
Qed.

Lemma print_group_info_run (g : dict (list string)) (s : state) :
  print_group_info g s =
  (Ok tt, mkState (fs s) (trace s ++ map EvPrint (render g))).
Proof.
  unfold print_group_info. revert s.
  induction g as [|[k files] g IH]; intros s; simpl.
  - unfold ret. rewrite app_nil_r. now destruct s.
  - rewrite (bind_ok _ _ s
               (mkState (fs s)
                  (trace s ++ EvPrint (k ++ ":")
                     :: map EvPrint (map (fun f => ("  - " ++ f)%string)
                                       files))) tt).
    + rewrite IH. simpl. rewrite map_app, <- !app_assoc. reflexivity.
    + rewrite bind_print. cbv beta.
      pose proof (for_each_print "  - " files
                    (mkState (fs s) (trace s ++ [EvPrint (k ++ ":")])))
        as P.
      simpl in P. rewrite <- app_assoc in P. exact P.
Qed.

(** ** The Mover adds only changes of the file system to the trace *)

Lemma moves_only_ret {A} (a : A) : moves_only (ret a).
Proof.
  intros s o s' [= <- <-]. split; [discriminate|].
  exists []. split; [unfold added; now rewrite app_nil_r|reflexivity].
Qed.

Lemma moves_only_ask {A} (q : world -> A) : moves_only (ask q).
Proof.
  intros s o s' [= <- <-]. split; [discriminate|].
  exists []. split; [unfold added; now rewrite app_nil_r|reflexivity].
Qed.

Lemma moves_only_mutate (op : world -> option world) (e : event) :
  is_mutation e = true -> moves_only (mutate op e).
Proof.
  intros He s o s'. unfold mutate. destruct (op (fs s)).
  - intros [= <- <-]. split; [discriminate|].
    exists [e]. split; [reflexivity|]. simpl. now rewrite He.
  - intros [= <- <-]. split; [discriminate|].
    exists []. split; [unfold added; now rewrite app_nil_r|reflexivity].
Qed.

Lemma moves_only_bind {A B} (m : M A) (k : A -> M B) :
  moves_only m -> (forall a, moves_only (k a)) -> moves_only (bind m k).
Proof.
  intros Hm Hk s o s'. unfold bind.
  destruct (m s) as [[a|c|e] s1] eqn:E.
  - intros E'. destruct (Hm _ _ _ E) as (_ & evs1 & A1 & F1).
    destruct (Hk a _ _ _ E') as (N & evs2 & A2 & F2).
    split; [exact N|]. exists (evs1 ++ evs2). split.
    + unfold added in *. now rewrite A2, A1, app_assoc.
    + now rewrite forallb_app, F1, F2.
  - destruct (Hm _ _ _ E) as (N & _). now destruct (N c).
  - intros [= <- <-]. destruct (Hm _ _ _ E) as (_ & evs & A1 & F1).
    split; [discriminate|]. now exists evs.
Qed.

Lemma moves_only_for_each {A} (xs : list A) (body : A -> M unit) :
  (forall x, moves_only (body x)) -> moves_only (for_each xs body).
Proof.
  intros H. induction xs as [|x xs IH]; simpl.
  - apply moves_only_ret.
  - apply moves_only_bind; auto.
Qed.

Lemma moves_only_do_move (pwd : string) (g : dict (list string)) :
  moves_only (do_move pwd g).
Proof.
  apply moves_only_for_each. intros [k files]. unfold move_group.
  apply moves_only_bind; [apply moves_only_ask|]. intros e.
  apply moves_only_bind.
  - destruct (negb e); [now apply moves_only_mutate|apply moves_only_ret].
  - intros _. apply moves_only_for_each. intros f.
    now apply moves_only_mutate.
Qed.

(** ** The entry point *)

Section MainFacts.
Variable strftime : Z -> string -> string.
Variable formats : Z -> string -> bool.

Lemma scan_run (a : args) (s : state) :
  scan strftime formats a s =
  let pwd := folder_path a in
  if negb (os_path_exists (fs s) pwd) then
    (Exit 1,
     mkState (fs s) (trace s ++ [EvPrint ("No such folder: " ++ pwd)]))
  else if os_path_isfile (fs s) pwd then
    (Exit 1, mkState (fs s) (trace s ++ [EvPrint (pwd ++ " is a file.")]))
  else
    match os_listdir (fs s) pwd with
    | Some names =>
        (match regroup (time_key strftime formats (fs s) pwd (date_string a))
                 (filter (listed (fs s) pwd) names) [] with
         | Some g => Ok g
         | None =>
             Raise (raised formats (fs s) pwd (date_string a)
                      (filter (listed (fs s) pwd) names))
         end, s)
    | None => (Raise OSError, s)
    end.
Proof.
  unfold scan, bind. rewrite get_file_list_run. simpl.
  destruct (os_path_exists (fs s) (folder_path a)); simpl; [|reflexivity].
  destruct (os_path_isfile (fs s) (folder_path a)); [reflexivity|].
  destruct (os_listdir (fs s) (folder_path a)); [|reflexivity].
  apply group_by_date_run.
Qed.

Lemma scan_ok (a : args) (s s1 : state) (g : dict (list string)) :
  scan strftime formats a s = (Ok g, s1) -> s1 = s.
Proof.
  rewrite scan_run. simpl.
  destruct (os_path_exists _ _); simpl; [|discriminate].
  destruct (os_path_isfile _ _); [discriminate|].
  destruct (os_listdir _ _); [|discriminate].
  destruct (regroup _ _ _); now intros [= <- <-].
Qed.

Lemma scan_fs_only (a : args) (s1 s2 : state) :
  fs s1 = fs s2 ->
  fst (scan strftime formats a s1) = fst (scan strftime formats a s2)
  /\ fs (snd (scan strftime formats a s1)) = fs s1.
Proof.
  intros E. rewrite !scan_run. simpl. rewrite <- E.
  destruct (os_path_exists _ _); simpl; [|auto].
  destruct (os_path_isfile _ _); [auto|].
  destruct (os_listdir _ _); auto.
Qed.

Lemma scan_again (a : args) (s : state) (g : dict (list string))
  (tr : list event) :
  scan strftime formats a s = (Ok g, s) ->
  scan strftime formats a (mkState (fs s) tr) = (Ok g, mkState (fs s) tr).
Proof.
  intros H.
  destruct (scan_fs_only a (mkState (fs s) tr) s eq_refl) as [E _].
  rewrite H in E. simpl in E.
  destruct (scan strftime formats a (mkState (fs s) tr)) as [o s1] eqn:S.
  simpl in E. subst o. now rewrite (scan_ok _ _ _ _ S).
Qed.

Lemma main_env_phases (env : world -> world) (a : args) (s : state) :
  main_env strftime formats env a s =
  (preview_phase strftime formats a ;; interfere env ;;
   move_phase strftime formats a) s.
Proof.
  unfold main_env, preview_phase, move_phase, scan, bind.
  destruct (get_file_list (folder_path a) s) as [[l|c|e] s1]; auto.
  destruct (group_by_date strftime formats (folder_path a) l
              (date_string a) s1) as [[g|c|e] s2]; auto.
  destruct (print_group_info g s2) as [[[]|c|e] s3]; auto.
  unfold interfere. destruct (simulation a); simpl; [reflexivity|].
  destruct (get_file_list (folder_path a) _) as [[l'|c|e] s4]; auto.
Qed.

Lemma interfere_quiet (s : state) : interfere (fun w => w) s = (Ok tt, s).
Proof. unfold interfere. now destruct s. Qed.

Lemma main_phases (a : args) (s : state) :
  main strftime formats a s = (preview_phase strftime formats a ;; move_phase strftime formats a) s.
Proof.
  unfold main. rewrite main_env_phases. unfold bind at 1 3.
  destruct (preview_phase strftime formats a s) as [[[]|c|e] s1]; auto.
  unfold bind. now rewrite interfere_quiet.
Qed.

Lemma preview_phase_run (a : args) (s : state) :
  preview_phase strftime formats a s =
  match scan strftime formats a s with
  | (Ok g, s1) =>
      (Ok tt, mkState (fs s1) (trace s1 ++ map EvPrint (render g)))
  | (Exit c, s1) => (Exit c, s1)
  | (Raise e, s1) => (Raise e, s1)
  end.
Proof.
  unfold preview_phase, bind.
  destruct (scan strftime formats a s) as [[g|c|e] s1]; auto.
  apply print_group_info_run.
Qed.

(** When the scan succeeds, [main] previews its grouping and, unless the
    run is a simulation, moves by the same grouping. *)
Lemma main_run_ok (a : args) (s s1 : state) (g : dict (list string)) :
  scan strftime formats a s = (Ok g, s1) ->
  main strftime formats a s =
  let s2 := mkState (fs s) (trace s ++ map EvPrint (render g)) in
  if simulation a then (Ok tt, s2) else do_move (folder_path a) g s2.
Proof.
  intros H. pose proof (scan_ok _ _ _ _ H) as ->.
  rewrite main_phases. unfold bind at 1. rewrite preview_phase_run, H.
  unfold move_phase. simpl. destruct (simulation a); simpl; [reflexivity|].
  unfold bind. now rewrite (scan_again a s g _ H).
Qed.

Lemma main_run_fail (a : args) (s : state) :
  (forall g s1, scan strftime formats a s <> (Ok g, s1)) ->
  main strftime formats a s =
  match scan strftime formats a s with
  | (Ok g, s1) => (Ok tt, s1)
  | (Exit c, s1) => (Exit c, s1)
  | (Raise e, s1) => (Raise e, s1)
  end.
Proof.
  intros H. rewrite main_phases. unfold bind at 1.
  rewrite preview_phase_run.
  destruct (scan strftime formats a s) as [[g|c|e] s1]; auto.
  now destruct (H g s1).
Qed.

End MainFacts.

Section MainProperties.
Variable strftime : Z -> string -> string.
Variable formats : Z -> string -> bool.

Lemma isfile_exists (w : world) (p : string) :
  os_path_isfile w p = true -> os_path_exists w p = true.
Proof.
  unfold os_path_isfile, os_path_exists. destruct (stat w p); auto.
Qed.

Lemma scan_exit (a : args) (s s' : state) (c : Z) :
  scan strftime formats a s = (Exit c, s') ->
  c = 1%Z /\ fs s' = fs s
  /\ (os_path_exists (fs s) (folder_path a) = false
      \/ os_path_isfile (fs s) (folder_path a) = true).
Proof.
  rewrite scan_run. simpl.
  destruct (os_path_exists _ _); simpl.
  - destruct (os_path_isfile _ _).
    + intros [= <- <-]. auto.
    + destruct (os_listdir _ _); [|discriminate].
      destruct (regroup _ _ _); discriminate.
  - intros [= <- <-]. auto.
Qed.

(** C5. When the target path does not exist, or is a regular file, the
    run prints the diagnostic and ends through [exit(1)] with the file
    system as it found it; and a run ends through [exit] only in these two
    cases. *)
Theorem invalid_target_exits (a : args) (s : state) :
  let pwd := folder_path a in
  (os_path_exists (fs s) pwd = false ->
   main strftime formats a s =
   (Exit 1,
    mkState (fs s) (trace s ++ [EvPrint ("No such folder: " ++ pwd)])))
  /\ (os_path_isfile (fs s) pwd = true ->
      main strftime formats a s =
      (Exit 1,
       mkState (fs s) (trace s ++ [EvPrint (pwd ++ " is a file.")])))
  /\ (forall c s', main strftime formats a s = (Exit c, s') ->
        c = 1%Z /\ fs s' = fs s
        /\ (os_path_exists (fs s) pwd = false
            \/ os_path_isfile (fs s) pwd = true)).
Proof.
  intros pwd. split; [|split].
  - intros H. rewrite main_run_fail; rewrite scan_run; fold pwd; simpl;
      rewrite H; simpl; [reflexivity|discriminate].
  - intros H. pose proof (isfile_exists _ _ H) as E.
    rewrite main_run_fail; rewrite scan_run; fold pwd; simpl;
      rewrite E, H; simpl; [reflexivity|discriminate].
  - intros c s' H.
    destruct (scan strftime formats a s) as [[g|c1|e] s1] eqn:S.
    + rewrite (main_run_ok _ _ _ _ _ _ S) in H. simpl in H.
      destruct (simulation a); [discriminate|].
      destruct (moves_only_do_move _ _ _ _ _ H) as [N _].
      now destruct (N c).
    + rewrite main_run_fail in H by (rewrite S; discriminate).
      rewrite S in H. injection H as <- <-. now apply scan_exit.
    + rewrite main_run_fail in H by (rewrite S; discriminate).
      rewrite S in H. discriminate.
Qed.

Lemma scan_trace (a : args) (s : state) :
  exists lines,
    trace (snd (scan strftime formats a s)) = trace s ++ map EvPrint lines
    /\ fs (snd (scan strftime formats a s)) = fs s.
Proof.
  rewrite scan_run. simpl.
  destruct (os_path_exists _ _); simpl.
  - destruct (os_path_isfile _ _); simpl.
    + eexists [_]. split; reflexivity.
    + exists []. simpl. rewrite app_nil_r.
      destruct (os_listdir _ _); auto.
  - eexists [_]. split; reflexivity.
Qed.

Lemma main_fail_state (a : args) (s : state) :
  (forall g s1, scan strftime formats a s <> (Ok g, s1)) ->
  snd (main strftime formats a s) = snd (scan strftime formats a s).
Proof.
  intros H. rewrite (main_run_fail _ _ _ _ H).
  destruct (scan strftime formats a s) as [[g|c|e] s1]; reflexivity.
Qed.

(** C3. A simulation run leaves the file system as it found it, so a
    listing of the target directory after the run equals the listing
    before it; the run adds nothing but printed lines to the trace, and
    when the scan succeeds these are the whole preview of the grouping. *)
Theorem simulation_changes_nothing (a : args) (s : state) :
  simulation a = true ->
  let s' := snd (main strftime formats a s) in
  fs s' = fs s
  /\ os_listdir (fs s') (folder_path a) = os_listdir (fs s) (folder_path a)
  /\ (exists lines, trace s' = trace s ++ map EvPrint lines)
  /\ (forall g s1, scan strftime formats a s = (Ok g, s1) ->
        main strftime formats a s =
        (Ok tt, mkState (fs s) (trace s ++ map EvPrint (render g)))).
Proof.
  intros Sim s'.
  assert (K : fs s' = fs s
              /\ exists lines, trace s' = trace s ++ map EvPrint lines).
  { subst s'. destruct (scan strftime formats a s) as [[g|c|e] s1] eqn:S.
    - rewrite (main_run_ok _ _ _ _ _ _ S), Sim. simpl. eauto.
    - rewrite main_fail_state by (rewrite S; discriminate).
      destruct (scan_trace a s) as (lines & T & F). eauto.
    - rewrite main_fail_state by (rewrite S; discriminate).
      destruct (scan_trace a s) as (lines & T & F). eauto. }
  destruct K as [K1 K2]. split; [exact K1|]. split; [now rewrite K1|].
  split; [exact K2|].
  intros g s1 S. rewrite (main_run_ok _ _ _ _ _ _ S), Sim. reflexivity.
Qed.

(** C8. In either mode the trace of a run is printed lines followed by
    changes of the file system: no [mkdir] or [rename] comes before a
    printed line. When the scan succeeds the printed lines are the whole
    preview, whether the run is a simulation or not; in a simulation no
    change follows. *)
Theorem preview_precedes_mutation (a : args) (s : state) :
  exists lines muts,
    trace (snd (main strftime formats a s)) = trace s ++ map EvPrint lines ++ muts
    /\ forallb is_mutation muts = true
    /\ (forall g s1, scan strftime formats a s = (Ok g, s1) -> lines = render g)
    /\ (simulation a = true -> muts = []).
Proof.
  destruct (scan strftime formats a s) as [[g|c|e] s1] eqn:S.
  - rewrite (main_run_ok _ _ _ _ _ _ S). simpl.
    destruct (simulation a) eqn:Sim.
    + exists (render g), []. simpl. rewrite app_nil_r.
      repeat split; auto. intros g' s1' [= <- <-]. reflexivity.
    + destruct (do_move (folder_path a) g
                  (mkState (fs s) (trace s ++ map EvPrint (render g))))
        as [o s2] eqn:D.
      destruct (moves_only_do_move _ _ _ _ _ D) as (_ & evs & A & F).
      exists (render g), evs. unfold added in A. simpl in *.
      rewrite A, <- app_assoc. repeat split; auto.
      * intros g' s1' [= <- <-]. reflexivity.
      * discriminate.
  - rewrite main_fail_state by (rewrite S; discriminate).
    destruct (scan_trace a s) as (lines & T & _).
    exists lines, []. rewrite app_nil_r. repeat split; auto.
    discriminate.
  - rewrite main_fail_state by (rewrite S; discriminate).
    destruct (scan_trace a s) as (lines & T & _).
    exists lines, []. rewrite app_nil_r. repeat split; auto.
    discriminate.
Qed.

(** C9. When the run is not a simulation, the Grouping handed to
    [do_move] is rebuilt from a second listing, taken after the preview:
    whatever the environment has made of the file system by then, the
    Mover works on the Grouping of that file system, in that file system,
    and not on the previewed Grouping. When the file system is unchanged
    between the two scans, the second Grouping equals the previewed
    one. *)
Theorem mover_gets_fresh_grouping (env : world -> world) (a : args)
  (s : state) :
  simulation a = false ->
  (forall g s1, scan strftime formats a s = (Ok g, s1) ->
     let s2 := mkState (env (fs s)) (trace s ++ map EvPrint (render g)) in
     main_env strftime formats env a s =
     match scan strftime formats a s2 with
     | (Ok g', s3) => do_move (folder_path a) g' s3
     | (Exit c, s3) => (Exit c, s3)
     | (Raise e, s3) => (Raise e, s3)
     end)
  /\ (forall g s1, scan strftime formats a s = (Ok g, s1) ->
        env (fs s) = fs s ->
        let s2 := mkState (fs s) (trace s ++ map EvPrint (render g)) in
        scan strftime formats a s2 = (Ok g, s2)
        /\ main_env strftime formats env a s =
           do_move (folder_path a) g s2)
  /\ main strftime formats a s =
     main_env strftime formats (fun w => w) a s.
Proof.
  intros Sim.
  assert (A : forall g s1, scan strftime formats a s = (Ok g, s1) ->
            main_env strftime formats env a s =
            match scan strftime formats a
                    (mkState (env (fs s))
                       (trace s ++ map EvPrint (render g))) with
            | (Ok g', s3) => do_move (folder_path a) g' s3
            | (Exit c, s3) => (Exit c, s3)
            | (Raise e, s3) => (Raise e, s3)
            end).
  { intros g s1 S. pose proof (scan_ok _ _ _ _ _ _ S) as ->.
    rewrite main_env_phases. unfold bind at 1.
    rewrite preview_phase_run, S. unfold bind at 1. unfold interfere.
    cbn [fs trace]. unfold move_phase. rewrite Sim. reflexivity. }
  split; [exact A|]. split; [|reflexivity].
  intros g s1 S E s2. pose proof (scan_ok _ _ _ _ _ _ S) as ->.
  assert (S2 : scan strftime formats a s2 = (Ok g, s2))
    by (apply (scan_again strftime formats a s g); exact S).
  split; [exact S2|].
  rewrite (A g s S), E. fold s2. now rewrite S2.
Qed.

(** C10. Every Group of a Grouping returned by [group_by_date] has at
    least one member, an input file; on the empty input the Grouping is
    empty, and on the empty Grouping [print_group_info] prints nothing and
    [do_move] does nothing. *)
Theorem groups_are_nonempty (pwd : string) (file_list : list string)
  (date_format : string) (s : state) :
  (forall g s',
     group_by_date strftime formats pwd file_list date_format s = (Ok g, s') ->
     forall k ms, In (k, ms) g ->
       ms <> [] /\ exists f, In f ms /\ In f file_list)
  /\ group_by_date strftime formats pwd [] date_format s = (Ok [], s)
  /\ print_group_info [] s = (Ok tt, s)
  /\ do_move pwd [] s = (Ok tt, s).
Proof.
  split; [|repeat split].
  intros g s' H k ms I. apply group_by_date_ok in H. destruct H as [_ R].
  apply (regroup_item _ _ _ _ _ R) in I. destruct I as [-> N].
  split; [exact N|].
  destruct (members_of _ k file_list) as [|f ms] eqn:E; [congruence|].
  exists f. split; [now left|].
  assert (I : In f (members_of
                      (time_key strftime formats (fs s) pwd date_format) k file_list))
    by (rewrite E; now left).
  apply members_of_in in I. tauto.
Qed.

End MainProperties.

(** ** Rewriting the tree *)

Lemma update_at_app (p q : location) (f : node -> option node) (n : node) :
  update_at (p ++ q) f n = update_at p (update_at q f) n.
Proof.
  revert n. induction p as [|c p IH]; intros n; simpl; [reflexivity|].
  destruct n as [|m es|]; auto.
  destruct (dict_find es c); auto. now rewrite IH.
Qed.

Lemma update_at_get (p : location) (f : node -> option node)
  (n n' x : node) :
  get n p = Some x -> update_at p f n = Some n' ->
  exists x', f x = Some x' /\ get n' p = Some x'.
Proof.
  revert n n'. induction p as [|c p IH]; intros n n'; simpl.
  - intros [= ->] H. now exists n'.
  - destruct n as [|m es|]; try discriminate.
    destruct (dict_find es c) as [ch|] eqn:F; [|discriminate].
    intros G U. destruct (update_at p f ch) as [ch'|] eqn:U'; [|discriminate].
    injection U as <-. destruct (IH _ _ G U') as (x' & Hx & Gx).
    exists x'. split; [exact Hx|]. now rewrite dict_find_set_same.
Qed.

Lemma update_at_keeps_dirs (p : location) (f : node -> option node)
  (n n' x : node) :
  get n p = Some x ->
  (forall x', f x = Some x' -> keeps_dirs x x') ->
  update_at p f n = Some n' -> keeps_dirs n n'.
Proof.
  revert n n'. induction p as [|c p IH]; intros n n'; simpl.
  - intros [= ->] H U. now apply H.
  - destruct n as [|m es|]; try discriminate.
    destruct (dict_find es c) as [ch|] eqn:F; [|discriminate].
    intros G H U.
    destruct (update_at p f ch) as [ch'|] eqn:U'; [|discriminate].
    injection U as <-. intros [|c' q]; [reflexivity|]. simpl.
    destruct (String.eqb c' c) eqn:E.
    + apply String.eqb_eq in E. subst c'.
      rewrite F, dict_find_set_same. now apply (IH _ _ G H U').
    + apply String.eqb_neq in E. now rewrite dict_find_set_other.
Qed.

Lemma keeps_dirs_trans (a b c : node) :
  keeps_dirs a b -> keeps_dirs b c -> keeps_dirs a c.
Proof. unfold keeps_dirs. auto. Qed.

Lemma walk_first_dir (r : node) (cur c : location) (cs : list string) :
  walk r cur cs = Some c -> is_dir_opt (get r c) = true ->
  is_dir_opt (get r cur) = true.
Proof.
  destruct cs as [|x cs]; simpl.
  - now intros [= ->].
  - destruct (get r cur) as [[|m es|]|]; try discriminate. reflexivity.
Qed.

Lemma walk_keeps (r r' : node) (cur c : location) (cs : list string) :
  keeps_dirs r r' ->
  walk r cur cs = Some c -> is_dir_opt (get r c) = true ->
  walk r' cur cs = Some c.
Proof.
  intros K. revert cur. induction cs as [|x cs IH]; intros cur; simpl; auto.
  intros W D.
  assert (Dc : is_dir_opt (get r' cur) = true).
  { apply K. apply (walk_first_dir r cur c (x :: cs)); [exact W|exact D]. }
  destruct (get r cur) as [[|m es|]|] eqn:G; try discriminate.
  destruct (get r' cur) as [[|m' es'|]|] eqn:G'; try discriminate.
  destruct (String.eqb x "" || String.eqb x "."); [now apply IH|].
  destruct (String.eqb x ".."); [now apply IH|].
  destruct (dict_find es x) as [ch|] eqn:F; [|discriminate].
  assert (Dx : is_dir_opt (get r' (cur ++ [x])) = true).
  { apply K. eapply walk_first_dir; eauto. }
  rewrite get_app, G' in Dx. simpl in Dx.
  destruct (dict_find es' x); [now apply IH|discriminate].
Qed.

Lemma resolve_keeps (w : world) (r' : node) (p : string) (c : location) :
  keeps_dirs (root w) r' ->
  resolve w p = Some c -> is_dir_opt (get (root w) c) = true ->
  resolve (set_root w r') p = Some c.
Proof.
  unfold resolve. intros K. destruct (String.eqb p ""); [discriminate|].
  intros W D. unfold start_of in *. simpl. eapply walk_keeps; eauto.
Qed.

(** ** Directory writes keep directories *)

Lemma dir_set_keeps (t : Z) (name : string) (child : node) (m : Z)
  (es : dict node) :
  is_dir_opt (dict_find es name) = false ->
  keeps_dirs (Dir m es) (Dir t (dict_set es name child)).
Proof.
  intros H [|c q]; [reflexivity|]. simpl.
  destruct (String.eqb c name) eqn:E.
  - apply String.eqb_eq in E. subst c.
    destruct (dict_find es name) as [[| |]|]; try discriminate;
      destruct q; discriminate.
  - apply String.eqb_neq in E. now rewrite dict_find_set_other.
Qed.

Lemma dir_remove_keeps (t : Z) (name : string) (m : Z) (es : dict node) :
  is_dir_opt (dict_find es name) = false ->
  keeps_dirs (Dir m es) (Dir t (dict_del es name)).
Proof.
  intros H [|c q]; [reflexivity|]. simpl.
  destruct (String.eqb c name) eqn:E.
  - apply String.eqb_eq in E. subst c.
    destruct (dict_find es name) as [[| |]|]; try discriminate;
      destruct q; discriminate.
  - apply String.eqb_neq in E. now rewrite dict_find_del_other.
Qed.

Lemma is_prefix_length (a b : location) :
  is_prefix a b = true -> (List.length a <= List.length b)%nat.
Proof.
  revert b. induction a as [|x a IH]; intros [|y b]; simpl;
    try discriminate; try lia.
  rewrite andb_true_iff. intros [_ H]. specialize (IH _ H). lia.
Qed.

Lemma location_eqb_longer (T : location) (k f : string) :
  location_eqb (T ++ [f]) ((T ++ [k]) ++ [f]) = false.
Proof.
  unfold location_eqb. apply andb_false_iff. right.
  destruct (is_prefix ((T ++ [k]) ++ [f]) (T ++ [f])) eqn:E; auto.
  apply is_prefix_length in E. rewrite !length_app in E. simpl in E. lia.
Qed.

(** ** System calls on the entries of the target directory *)

Section Target.
Variables (w : world) (pwd : string) (T : location) (E : dict node).
Hypothesis Ht : target_is w pwd T E.

Lemma target_nonempty : pwd <> "".
Proof. destruct Ht as [R _]. eapply resolve_nonempty; eauto. Qed.

Lemma target_stat (k : string) :
  valid_name k = true -> stat w (os_path_join pwd k) = dict_find E k.
Proof.
  intros Hk. destruct Ht as [R [m G]].
  rewrite (stat_join w pwd k T target_nonempty Hk R), G. reflexivity.
Qed.

Lemma target_resolve_entry (k : string) (nk : node) :
  valid_name k = true -> dict_find E k = Some nk ->
  resolve w (os_path_join pwd k) = Some (T ++ [k])
  /\ get (root w) (T ++ [k]) = Some nk.
Proof.
  intros Hk F. destruct Ht as [R [m G]].
  rewrite (resolve_join w pwd k T target_nonempty Hk R).
  rewrite (walk_name _ _ _ Hk), G, F. split; [reflexivity|].
  rewrite get_app, G. simpl. now rewrite F.
Qed.

Lemma join_nonempty (k : string) :
  valid_name k = true -> os_path_join pwd k <> "".
Proof.
  intros Hk. now destruct (split_join pwd k target_nonempty Hk).
Qed.

Lemma target_stat2 (k f : string) (nk : node) :
  valid_name k = true -> valid_name f = true ->
  dict_find E k = Some nk ->
  stat w (os_path_join3 pwd k f) = entry2 E k f.
Proof.
  intros Hk Hf F. destruct (target_resolve_entry k nk Hk F) as [R G].
  unfold os_path_join3, entry2.
  rewrite (stat_join w _ f _ (join_nonempty k Hk) Hf R), G, F.
  reflexivity.
Qed.

Lemma mkdir_local (k : string) (w' : world) :
  valid_name k = true ->
  os_mkdir w (os_path_join pwd k) = Some w' ->
  dict_find E k = None
  /\ target_is w' pwd T (dict_set E k (Dir (now w) [])).
Proof.
  intros Hk. destruct Ht as [R [m G]]. unfold os_mkdir.
  rewrite (locate_join w pwd k T target_nonempty Hk R).
  rewrite get_app, G. simpl.
  destruct (dict_find E k) eqn:F; [discriminate|].
  destruct (update_at T _ (root w)) as [r'|] eqn:U; [|discriminate].
  intros [= <-]. split; [reflexivity|].
  destruct (update_at_get _ _ _ _ _ G U) as (x' & Hx & Gx).
  simpl in Hx. injection Hx as <-.
  split.
  - apply resolve_keeps; [|exact R|now rewrite G].
    eapply update_at_keeps_dirs; [exact G| |exact U].
    intros x' [= <-]. apply dir_set_keeps. now rewrite F.
  - now exists (now w).
Qed.

Lemma rename_local (f k : string) (t : Z) (nk : node) (w' : world) :
  valid_name f = true -> valid_name k = true ->
  dict_find E f = Some (File t) -> dict_find E k = Some nk ->
  os_rename w (os_path_join pwd f) (os_path_join3 pwd k f) = Some w' ->
  exists mk Ek,
    nk = Dir mk Ek
    /\ target_is w' pwd T
         (dict_set (dict_del E f) k
            (Dir (now w) (dict_set Ek f (File t)))).
Proof.
  intros Hf Hk Ff Fk. destruct Ht as [R [m G]].
  destruct (target_resolve_entry k nk Hk Fk) as [Rk Gk].
  unfold os_rename, os_path_join3.
  rewrite (locate_join w pwd f T target_nonempty Hf R).
  rewrite (locate_join w _ f _ (join_nonempty k Hk) Hf Rk).
  rewrite (get_app _ T [f]), G. simpl get. rewrite Ff, Gk.
  destruct nk as [|mk Ek|]; try discriminate.
  simpl orb. simpl andb. cbv iota.
  rewrite location_eqb_longer.
  destruct (may_replace (File t) (get (root w) ((T ++ [k]) ++ [f]))) eqn:My;
    [|discriminate].
  destruct (update_at T (dir_remove (now w) f) (root w)) as [r1|] eqn:U1;
    [|discriminate].
  destruct (update_at (T ++ [k]) (dir_set (now w) f (File t)) r1)
    as [r2|] eqn:U2; [|discriminate].
  intros [= <-]. exists mk, Ek. split; [reflexivity|].
  assert (Nkf : k <> f) by (intros ->; congruence).
  assert (Dkf : is_dir_opt (dict_find Ek f) = false).
  { rewrite get_app, Gk in My. simpl in My.
    destruct (dict_find Ek f) as [[| |]|]; auto. }
  destruct (update_at_get _ _ _ _ _ G U1) as (x1 & Hx1 & Gx1).
  simpl in Hx1. injection Hx1 as <-.
  rewrite update_at_app in U2.
  destruct (update_at_get _ _ _ _ _ Gx1 U2) as (x2 & Hx2 & Gx2).
  assert (Fk1 : dict_find (dict_del E f) k = Some (Dir mk Ek))
    by (rewrite dict_find_del_other; auto).
  simpl in Hx2. rewrite Fk1 in Hx2. simpl in Hx2. injection Hx2 as <-.
  split; [|now exists (now w)].
  apply resolve_keeps; [|exact R|now rewrite G].
  apply keeps_dirs_trans with r1.
  - eapply update_at_keeps_dirs; [exact G| |exact U1].
    intros x' [= <-]. apply dir_remove_keeps. now rewrite Ff.
  - eapply update_at_keeps_dirs; [exact Gx1| |exact U2].
    intros x' Hx'.
    eapply (update_at_keeps_dirs [k]); [| |exact Hx'].
    + simpl. rewrite Fk1. reflexivity.
    + intros x'' [= <-]. now apply dir_set_keeps.
Qed.

End Target.

(** ** The invariant of the Mover, on the entries alone *)

Lemma find_after_rename (E : dict node) (f k x : string) (D : node) :
  k <> f ->
  dict_find (dict_set (dict_del E f) k D) x =
  if String.eqb x k then Some D
  else if String.eqb x f then None
  else dict_find E x.
Proof.
  intros N. destruct (String.eqb x k) eqn:Ek.
  - apply String.eqb_eq in Ek. subst. apply dict_find_set_same.
  - apply String.eqb_neq in Ek. rewrite dict_find_set_other by exact Ek.
    destruct (String.eqb x f) eqn:Ef.
    + apply String.eqb_eq in Ef. subst. apply dict_find_del_same.
    + apply String.eqb_neq in Ef. now apply dict_find_del_other.
Qed.

Lemma find_after_mkdir (E : dict node) (k x : string) (D : node) :
  dict_find (dict_set E k D) x =
  if String.eqb x k then Some D else dict_find E x.
Proof.
  destruct (String.eqb x k) eqn:Ek.
  - apply String.eqb_eq in Ek. subst. apply dict_find_set_same.
  - apply String.eqb_neq in Ek. now apply dict_find_set_other.
Qed.

Lemma inv_more_keys (E0 E : dict node) p pl dk (k : string) :
  move_inv E0 E p pl dk -> move_inv E0 E p pl (dk ++ [k]).
Proof.
  intros (A & B & C & D1 & D2). repeat split; auto.
  intros x H. destruct (D2 x H); auto. right. apply in_or_app. now left.
Qed.

Lemma inv_mkdir (E0 E : dict node) p pl dk (k : string) (t : Z) :
  move_inv E0 E p pl dk -> dict_find E k = None -> In k dk ->
  move_inv E0 (dict_set E k (Dir t [])) p pl dk.
Proof.
  intros (A & B & C & D1 & D2) Fk Ik.
  split; [|split; [|split; [|split]]].
  - intros f I. destruct (A f I) as (t0 & H0 & H1). exists t0.
    split; [exact H0|]. rewrite find_after_mkdir.
    destruct (String.eqb f k) eqn:X; auto.
    apply String.eqb_eq in X. congruence.
  - intros k1 f1 I. destruct (B k1 f1 I) as (t0 & H0 & H1). exists t0.
    split; [exact H0|]. unfold entry2 in *. rewrite find_after_mkdir.
    destruct (String.eqb k1 k) eqn:X; auto.
    apply String.eqb_eq in X. subst k1. now rewrite Fk in H1.
  - intros k1 f1 I. rewrite find_after_mkdir.
    destruct (String.eqb f1 k); [reflexivity|]. eapply C; eauto.
  - intros x H. rewrite find_after_mkdir.
    destruct (String.eqb x k); [reflexivity|]. auto.
  - intros x. rewrite find_after_mkdir.
    destruct (String.eqb x k) eqn:X; auto.
    apply String.eqb_eq in X. subst. auto.
Qed.

Lemma inv_rename (E0 E : dict node) p pl dk (f k : string) (t t' mk : Z)
  (Ek : dict node) :
  move_inv E0 E (f :: p) pl dk -> ~ In f p ->
  dict_find E f = Some (File t) -> dict_find E k = Some (Dir mk Ek) ->
  move_inv E0
    (dict_set (dict_del E f) k (Dir t' (dict_set Ek f (File t))))
    p (pl ++ [(k, f)]) dk.
Proof.
  intros (A & B & C & D1 & D2) Nf Ff Fk.
  assert (Nkf : k <> f) by (intros ->; congruence).
  split; [|split; [|split; [|split]]].
  - intros f1 I. destruct (A f1 (or_intror I)) as (t0 & H0 & H1).
    exists t0. split; [exact H0|]. rewrite find_after_rename by exact Nkf.
    destruct (String.eqb f1 k) eqn:X.
    { apply String.eqb_eq in X. congruence. }
    destruct (String.eqb f1 f) eqn:Y; auto.
    apply String.eqb_eq in Y. congruence.
  - intros k1 f1 I. apply in_app_or in I. destruct I as [I|[I|[]]].
    + destruct (B k1 f1 I) as (t0 & H0 & H1). exists t0.
      split; [exact H0|]. unfold entry2 in *.
      rewrite find_after_rename by exact Nkf.
      destruct (String.eqb k1 k) eqn:X.
      * apply String.eqb_eq in X. subst k1. rewrite Fk in H1.
        rewrite dict_find_set_other; auto.
        intros ->. specialize (C _ _ I). now rewrite Ff in C.
      * destruct (String.eqb k1 f) eqn:Y; auto.
        apply String.eqb_eq in Y. subst k1. now rewrite Ff in H1.
    + injection I as <- <-.
      destruct (A f (or_introl eq_refl)) as (t0 & H0 & H1).
      exists t. split; [congruence|]. unfold entry2.
      rewrite dict_find_set_same. apply dict_find_set_same.
  - intros k1 f1 I. rewrite find_after_rename by exact Nkf.
    destruct (String.eqb f1 k); [reflexivity|].
    destruct (String.eqb f1 f) eqn:Y; [reflexivity|].
    apply in_app_or in I. destruct I as [I|[I|[]]].
    + eapply C; eauto.
    + injection I as <- <-. rewrite String.eqb_refl in Y. discriminate.
  - intros x H. rewrite find_after_rename by exact Nkf.
    destruct (String.eqb x k); [reflexivity|].
    destruct (String.eqb x f) eqn:Y; auto.
    apply String.eqb_eq in Y. subst x. specialize (D1 _ H).
    now rewrite Ff in D1.
  - intros x. rewrite find_after_rename by exact Nkf.
    destruct (String.eqb x k) eqn:X.
    + apply String.eqb_eq in X. subst x. intros _. apply D2.
      now rewrite Fk.
    + destruct (String.eqb x f); [discriminate|]. auto.
Qed.

(** ** The loops of [do_move] *)

Section Mover.
Variables (w0 : world) (pwd : string) (T : location) (E0 : dict node).
Hypothesis H0 : target_is w0 pwd T E0.

Lemma renames_run (k : string) (files : list string) :
  valid_name k = true ->
  forall (s s' : state) (E : dict node) p pl dk (nk : node),
    target_is (fs s) pwd T E ->
    move_inv E0 E (files ++ p) pl dk ->
    NoDup (files ++ p) ->
    (forall f, In f files -> valid_name f = true) ->
    dict_find E k = Some nk ->
    for_each files
      (fun file => rename (os_path_join pwd file)
                     (os_path_join3 pwd k file)) s = (Ok tt, s') ->
    exists E',
      target_is (fs s') pwd T E'
      /\ move_inv E0 E' p (pl ++ map (pair k) files) dk
      /\ trace s' = trace s ++ map (rename_event pwd k) files
      /\ (files <> [] -> is_dir nk = true).
Proof.
  intros Hk. induction files as [|f files IH];
    intros s s' E p pl dk nk Ht Inv ND Hv Fk; simpl.
  - intros [= <-]. exists E. rewrite !app_nil_r.
    split; [exact Ht|]. split; [exact Inv|]. split; [reflexivity|].
    intros N. now destruct N.
  - unfold bind at 1. unfold rename at 1, mutate.
    destruct (os_rename (fs s) (os_path_join pwd f)
                (os_path_join3 pwd k f)) as [w1|] eqn:R; [|discriminate].
    intros Run.
    destruct Inv as (A & Inv').
    destruct (A f (or_introl eq_refl)) as (t & F0 & Ff).
    destruct (rename_local _ _ _ _ Ht f k t nk w1
                (Hv f (or_introl eq_refl)) Hk Ff Fk R)
      as (mk & Ek & -> & Ht1).
    inversion ND as [|? ? Nf ND']; subst.
    pose proof (inv_rename E0 E (files ++ p) pl dk f k t (now (fs s)) mk Ek
                  (conj A Inv') Nf Ff Fk) as Inv1.
    destruct (IH (mkState w1 _) _ _ _ _ _ _ Ht1 Inv1 ND'
                (fun f' I => Hv f' (or_intror I))
                (dict_find_set_same _ _ _) Run)
      as (E' & Ht' & Inv2 & Tr & _).
    exists E'. split; [exact Ht'|]. split; [|split].
    + simpl. now rewrite <- app_assoc in Inv2.
    + rewrite Tr. simpl. now rewrite <- app_assoc.
    + reflexivity.
Qed.

Lemma isdir_initially (k : string) :
  valid_name k = true ->
  os_path_isdir w0 (os_path_join pwd k) = is_dir_opt (dict_find E0 k).
Proof.
  intros Hk. unfold os_path_isdir.
  now rewrite (target_stat _ _ _ _ H0 k Hk).
Qed.

Lemma move_group_run (k : string) (files : list string)
  (s s' : state) (E : dict node) p pl dk :
  valid_name k = true ->
  target_is (fs s) pwd T E ->
  move_inv E0 E (files ++ p) pl dk ->
  NoDup (files ++ p) ->
  (forall f, In f files -> valid_name f = true) ->
  ~ In k dk -> files <> [] ->
  move_group pwd (k, files) s = (Ok tt, s') ->
  exists E',
    target_is (fs s') pwd T E'
    /\ move_inv E0 E' p (pl ++ map (pair k) files) (dk ++ [k])
    /\ trace s' = trace s ++ group_events w0 pwd (k, files).
Proof.
  intros Hk Ht Inv ND Hv Nk Ne. unfold move_group, group_events.
  unfold bind at 1. unfold ask. unfold os_path_exists. cbn [fst snd].
  rewrite (target_stat _ _ _ _ Ht k Hk), (isdir_initially k Hk).
  pose proof (inv_more_keys _ _ _ _ _ k Inv) as Inv1.
  destruct (dict_find E k) as [nk|] eqn:Fk.
  - simpl negb. cbv iota. unfold bind at 1. unfold ret at 1.
    intros Run.
    destruct (renames_run k files Hk _ _ _ _ _ _ nk Ht Inv1 ND Hv Fk Run)
      as (E' & Ht' & Inv2 & Tr & Dk).
    exists E'. split; [exact Ht'|]. split; [exact Inv2|].
    destruct Inv as (_ & _ & _ & _ & D2).
    destruct (D2 k) as [D|D]; [rewrite Fk; now apply Dk| |contradiction].
    now rewrite D.
  - simpl negb. cbv iota. unfold bind at 1. unfold mkdir at 1, mutate.
    destruct (os_mkdir (fs s) (os_path_join pwd k)) as [w1|] eqn:Mk;
      [|discriminate].
    intros Run.
    destruct (mkdir_local _ _ _ _ Ht k w1 Hk Mk) as (_ & Ht1).
    assert (Inv2 : move_inv E0 (dict_set E k (Dir (now (fs s)) []))
                     (files ++ p) pl (dk ++ [k])).
    { apply inv_mkdir; auto. apply in_or_app. right. now left. }
    destruct (renames_run k files Hk (mkState w1 _) _ _ _ _ _ _ Ht1 Inv2
                ND Hv
                (dict_find_set_same _ _ _) Run)
      as (E' & Ht' & Inv3 & Tr & _).
    exists E'. split; [exact Ht'|]. split; [exact Inv3|].
    destruct Inv as (_ & _ & _ & D1 & _).
    destruct (is_dir_opt (dict_find E0 k)) eqn:D.
    + specialize (D1 k D). now rewrite Fk in D1.
    + rewrite Tr. simpl. now rewrite <- app_assoc.
Qed.

Lemma do_move_run (gs : dict (list string)) :
  forall (s s' : state) (E : dict node) pl dk,
    target_is (fs s) pwd T E ->
    move_inv E0 E (List.concat (map snd gs)) pl dk ->
    NoDup (List.concat (map snd gs)) ->
    (forall f, In f (List.concat (map snd gs)) -> valid_name f = true) ->
    (forall k, In k (keys gs) -> valid_name k = true) ->
    NoDup (dk ++ keys gs) ->
    (forall item, In item gs -> snd item <> []) ->
    do_move pwd gs s = (Ok tt, s') ->
    exists E',
      target_is (fs s') pwd T E'
      /\ move_inv E0 E' [] (pl ++ pairs_of gs) (dk ++ keys gs)
      /\ trace s' = trace s ++ move_events w0 pwd gs.
Proof.
  unfold do_move, move_events. induction gs as [|[k files] gs IH];
    intros s s' E pl dk Ht Inv ND Hv Hk NDk Ne; cbn [for_each].
  - intros [= <-]. exists E. simpl. rewrite !app_nil_r. auto.
  - unfold bind at 1.
    destruct (move_group pwd (k, files) s) as [[[]|c|e] s1] eqn:G;
      try discriminate.
    intros Run. simpl in Inv, ND, Hv, Hk, NDk.
    assert (Nk : ~ In k dk).
    { apply NoDup_remove_2 in NDk. intros I. apply NDk.
      apply in_or_app. now left. }
    destruct (move_group_run k files s s1 E _ pl dk
                (Hk k (or_introl eq_refl)) Ht Inv ND
                (fun f I => Hv f (in_or_app _ _ _ (or_introl I)))
                Nk (Ne (k, files) (or_introl eq_refl)) G)
      as (E1 & Ht1 & Inv1 & Tr1).
    assert (ND1 : NoDup (List.concat (map snd gs)))
      by now apply NoDup_app_remove_l in ND.
    assert (Hv1 : forall f, In f (List.concat (map snd gs)) ->
                            valid_name f = true)
      by (intros f I; apply Hv; apply in_or_app; now right).
    assert (Hk1 : forall k', In k' (keys gs) -> valid_name k' = true)
      by (intros k' I; apply Hk; now right).
    assert (NDk1 : NoDup ((dk ++ [k]) ++ keys gs))
      by now rewrite <- app_assoc.
    assert (Ne1 : forall item, In item gs -> snd item <> [])
      by (intros item I; apply Ne; now right).
    destruct (IH s1 s' E1 (pl ++ map (pair k) files) (dk ++ [k]) Ht1 Inv1
                ND1 Hv1 Hk1 NDk1 Ne1 Run)
      as (E' & Ht' & Inv2 & Tr2).
    exists E'. split; [exact Ht'|]. split.
    + rewrite <- !app_assoc in Inv2. exact Inv2.
    + rewrite Tr2, Tr1. now rewrite <- app_assoc.
Qed.

End Mover.

(** ** The Mover after the scan *)

Section MoveProperties.
Variable strftime : Z -> string -> string.
Variable formats : Z -> string -> bool.

Lemma get_file_list_ok (pwd : string) (s : state) (l : list string) :
  wf_world (fs s) = true ->
  get_file_list pwd s = (Ok l, s) ->
  exists T E0,
    target_is (fs s) pwd T E0
    /\ NoDup l
    /\ forall f, In f l ->
         valid_name f = true
         /\ exists t, dict_find E0 f = Some (File t).
Proof.
  intros W. rewrite get_file_list_run.
  destruct (os_path_exists (fs s) pwd); simpl; [|discriminate].
  destruct (os_path_isfile (fs s) pwd); [discriminate|].
  unfold os_listdir.
  destruct (stat (fs s) pwd) as [[|m E0|]|] eqn:S; try discriminate.
  intros [= <-]. destruct (stat_inv _ _ _ S) as (T & R & G & _).
  assert (Ht : target_is (fs s) pwd T E0) by (split; eauto).
  assert (Wd : wf_node (Dir m E0) = true) by (eapply wf_get; eauto).
  destruct (wf_dir_inv _ _ Wd) as (ND & Hv & _).
  exists T, E0. split; [exact Ht|]. split; [now apply NoDup_filter|].
  intros f I. apply filter_In in I. destruct I as [I L].
  split; [now apply Hv|].
  unfold listed in L. apply andb_true_iff in L. destruct L as [L _].
  apply andb_true_iff in L. destruct L as [L _].
  unfold os_path_isfile in L.
  rewrite (target_stat _ _ _ _ Ht f (Hv f I)) in L.
  destruct (dict_find E0 f) as [[t| |]|]; try discriminate. now exists t.
Qed.

Lemma in_pairs_of (g : dict (list string)) (k f : string)
  (ms : list string) :
  In (k, ms) g -> In f ms -> In (k, f) (pairs_of g).
Proof.
  intros I J. unfold pairs_of. apply in_flat_map. exists (k, ms).
  split; [exact I|]. simpl. now apply in_map.
Qed.

Lemma forallb_valid (l : list string) :
  forallb valid_name l = true -> forall k, In k l -> valid_name k = true.
Proof. intros H. now apply forallb_forall. Qed.

(** C2, as amended. After a successful run that is not a simulation, on
    a well-formed tree and with Group Keys that are directory names,
    every file that [get_file_list] had listed is a regular file at
    [pwd/<key>/<name>], [key] being its formatted last-modified time, and
    [pwd/<name>] is no regular file any more. After the preview the trace
    of the run is, group by group in the order of the Grouping, a
    [mkdir] of [pwd/<key>] exactly when that was no directory, followed by
    the renames of the members to [pwd/<key>/<name>] in the order of the
    Group. *)
Theorem listed_files_are_relocated (a : args) (s s' : state)
  (l : list string) (g : dict (list string)) :
  let pwd := folder_path a in
  wf_world (fs s) = true ->
  simulation a = false ->
  get_file_list pwd s = (Ok l, s) ->
  group_by_date strftime formats pwd l (date_string a) s = (Ok g, s) ->
  forallb valid_name (keys g) = true ->
  main strftime formats a s = (Ok tt, s') ->
  (forall f, In f l ->
     exists t,
       stat (fs s) (os_path_join pwd f) = Some (File t)
       /\ stat (fs s') (os_path_join3 pwd (strftime t (date_string a)) f)
          = Some (File t)
       /\ os_path_isfile (fs s') (os_path_join pwd f) = false)
  /\ trace s' =
     trace s ++ map EvPrint (render g) ++ move_events (fs s) pwd g.
Proof.
  intros pwd W Sim Hl Hg Hkeys Run.
  assert (Sc : scan strftime formats a s = (Ok g, s)).
  { unfold scan, bind. fold pwd. now rewrite Hl, Hg. }
  rewrite (main_run_ok _ _ _ _ _ _ Sc), Sim in Run. cbv zeta in Run.
  fold pwd in Run.
  destruct (get_file_list_ok pwd s l W Hl) as (T & E0 & Ht & NDl & Hfl).
  apply group_by_date_ok in Hg. destruct Hg as [_ R].
  set (key := time_key strftime formats (fs s) pwd (date_string a)) in *.
  destruct (regroup_spec key _ _ R) as (_ & _ & Perm & Hdef).
  pose proof (regroup_keys_nodup key _ _ R) as NDk.
  assert (Hmem : forall f, In f (List.concat (map snd g)) <-> In f l).
  { intros f. split; apply Permutation_in; [exact Perm|].
    now apply Permutation_sym. }
  assert (Inv0 : move_inv E0 E0 (List.concat (map snd g)) [] []).
  { split; [|split; [|split; [|split]]]; auto.
    - intros f I. apply Hmem in I. destruct (Hfl f I) as (_ & t & F).
      now exists t.
    - intros k f [].
    - intros k f []. }
  destruct (do_move_run (fs s) pwd T E0 Ht g
              (mkState (fs s) (trace s ++ map EvPrint (render g))) s'
              E0 [] [] Ht Inv0)
    as (E' & Ht' & Inv' & Tr); auto.
  - eapply Permutation_NoDup; [apply Permutation_sym; exact Perm|exact NDl].
  - intros f I. apply Hmem in I. now apply Hfl.
  - now apply forallb_valid.
  - intros [k ms] I. apply (regroup_item key _ _ _ _ R) in I. simpl. tauto.
  - split.
    + intros f I. destruct (Hfl f I) as (Vf & t & F0). exists t.
      assert (S0 : stat (fs s) (os_path_join pwd f) = Some (File t))
        by now rewrite (target_stat _ _ _ _ Ht f Vf).
      split; [exact S0|].
      set (k := strftime t (date_string a)).
      assert (Kf : key f = Some k).
      { rewrite Forall_forall in Hdef. specialize (Hdef f I).
        revert Hdef. unfold key, time_key, os_path_getmtime.
        rewrite S0. simpl.
        destruct (formats t (date_string a)); [reflexivity|congruence]. }
      assert (Ig : In (k, members_of key k l) g).
      { apply (regroup_item key _ _ _ _ R). split; [reflexivity|].
        intros Em.
        assert (J : In f (members_of key k l))
          by (apply members_of_in; auto).
        now rewrite Em in J. }
      assert (Vk : valid_name k = true).
      { apply (forallb_valid _ Hkeys). unfold keys.
        apply in_map_iff. now exists (k, members_of key k l). }
      destruct Inv' as (_ & B & C & _). simpl in B, C.
      assert (Ip : In (k, f) (pairs_of g)).
      { eapply in_pairs_of; [exact Ig|]. apply members_of_in. auto. }
      destruct (B k f Ip) as (t1 & F1 & P).
      assert (t1 = t) by congruence. subst t1.
      split.
      * assert (exists nk, dict_find E' k = Some nk) as [nk Fk].
        { unfold entry2 in P. destruct (dict_find E' k); [eauto|].
          discriminate. }
        now rewrite (target_stat2 _ _ _ _ Ht' k f nk Vk Vf Fk).
      * unfold os_path_isfile.
        rewrite (target_stat _ _ _ _ Ht' f Vf). exact (C k f Ip).
    + simpl in Tr. rewrite Tr. now rewrite <- app_assoc.
Qed.

End MoveProperties.

(* ================================================================== *)
(** * The properties on the example folder *)
(* ================================================================== *)

Import Examples.

Lemma group_by_date_partitions_input_example :
  (exists g, group_by_date Datetime.strftime_utc Datetime.formats_utc "u" listing0 "%Y%m" s0
             = (Ok g, s0))
  /\ Permutation (List.concat (map snd grouping0)) listing0
  /\ (forall f, In f listing0 ->
        exists! k, exists ms, In (k, ms) grouping0 /\ In f ms).
Proof.
  pose proof (group_by_date_partitions_input Datetime.strftime_utc Datetime.formats_utc
                "u" listing0 "%Y%m" s0) as [H1 H2].
  split.
  - apply H1.
    apply Forall_cons; [exists t_jan; split; vm_compute; reflexivity|].
    apply Forall_cons; [exists t_feb; split; vm_compute; reflexivity|].
    apply Forall_cons; [exists t_feb; split; vm_compute; reflexivity|].
    apply Forall_cons; [exists t_jan; split; vm_compute; reflexivity|].
    apply Forall_nil.
  - assert (E : group_by_date Datetime.strftime_utc Datetime.formats_utc "u" listing0 "%Y%m" s0
                = (Ok grouping0, s0)) by (vm_compute; reflexivity).
    destruct (H2 grouping0 s0 E) as (P & U & _). split; assumption.
Defined.

Lemma group_by_date_keeps_scan_order_example :
  NoDup (keys grouping0)
  /\ keys grouping0 =
     first_occurrences
       (keys_met (time_key Datetime.strftime_utc Datetime.formats_utc w0 "u" "%Y%m") listing0).
Proof.
  assert (E : group_by_date Datetime.strftime_utc Datetime.formats_utc "u" listing0 "%Y%m" s0
              = (Ok grouping0, s0)) by (vm_compute; reflexivity).
  destruct (group_by_date_keeps_scan_order Datetime.strftime_utc Datetime.formats_utc
              "u" listing0 "%Y%m" s0 grouping0 s0 E) as (H1 & _ & H3 & _).
  split; assumption.
Defined.

Lemma group_by_date_deterministic_example :
  fst (group_by_date Datetime.strftime_utc Datetime.formats_utc "u" listing0 "%Y%m" s0) =
  fst (group_by_date Datetime.strftime_utc Datetime.formats_utc "u" listing0 "%Y%m" s0').
Proof.
  apply (group_by_date_deterministic Datetime.strftime_utc Datetime.formats_utc
           "u" listing0 "%Y%m" s0 s0').
  intros f _. reflexivity.
Defined.

Lemma get_file_list_filters_example :
  exists l,
    get_file_list "u" s0 = (Ok l, s0)
    /\ NoDup l
    /\ In "Thumbs.db" l /\ ~ In "desktop.ini" l /\ ~ In ".hidden" l
    /\ ~ In "sub" l /\ ~ In "inner.txt" l.
Proof.
  destruct (get_file_list_filters "u" s0 5 folder)
    as (l & R & E & ND & Hin & Hd).
  - vm_compute. reflexivity.
  - vm_compute. reflexivity.
  - exists l. split; [exact R|]. split; [exact ND|].
    split; [|split; [|split; [|split]]].
    + apply Hin. split; [exists t_feb; reflexivity|].
      split; [|reflexivity].
      simpl. intros [H|[H|[H|[]]]]; discriminate.
    + intros I. apply Hin in I. simpl in I. tauto.
    + intros I. apply Hin in I. destruct I as (_ & _ & H). discriminate.
    + intros I. apply Hin in I. destruct I as ((t & H) & _). discriminate.
    + intros I. apply Hin in I. destruct I as ((t & H) & _). discriminate.
Defined.

Lemma invalid_target_exits_example :
  main Datetime.strftime_utc Datetime.formats_utc args_missing s0 =
  (Exit 1, mkState w0 [EvPrint "No such folder: nowhere"]).
Proof.
  apply (proj1 (invalid_target_exits Datetime.strftime_utc Datetime.formats_utc args_missing s0)).
  vm_compute. reflexivity.
Defined.

Lemma simulation_changes_nothing_example :
  fs (snd (main Datetime.strftime_utc Datetime.formats_utc args_simulation s0)) = w0
  /\ main Datetime.strftime_utc Datetime.formats_utc args_simulation s0 =
     (Ok tt, mkState w0 (map EvPrint (render grouping0))).
Proof.
  destruct (simulation_changes_nothing Datetime.strftime_utc Datetime.formats_utc
              args_simulation s0 eq_refl) as (H1 & _ & _ & H4).
  split; [exact H1|].
  apply (H4 grouping0 s0). vm_compute. reflexivity.
Defined.

Lemma preview_precedes_mutation_example :
  exists lines muts,
    trace (snd (main Datetime.strftime_utc Datetime.formats_utc args_move s0)) =
    trace s0 ++ map EvPrint lines ++ muts
    /\ forallb is_mutation muts = true
    /\ lines = render grouping0.
Proof.
  destruct (preview_precedes_mutation Datetime.strftime_utc Datetime.formats_utc args_move s0)
    as (lines & muts & H1 & H2 & H3 & _).
  exists lines, muts. split; [exact H1|]. split; [exact H2|].
  apply (H3 grouping0 s0). vm_compute. reflexivity.
Defined.

Lemma mover_gets_fresh_grouping_example :
  main_env Datetime.strftime_utc Datetime.formats_utc (fun _ => w_later)
    args_move s0
  = do_move "u" grouping_later
      (mkState w_later (map EvPrint (render grouping0)))
  /\ main Datetime.strftime_utc Datetime.formats_utc args_move s0
     = do_move "u" grouping0 (mkState w0 (map EvPrint (render grouping0))).
Proof.
  destruct (mover_gets_fresh_grouping Datetime.strftime_utc
              Datetime.formats_utc (fun _ => w_later) args_move s0 eq_refl)
    as (A & _).
  destruct (mover_gets_fresh_grouping Datetime.strftime_utc
              Datetime.formats_utc (fun w => w) args_move s0 eq_refl)
    as (_ & B & C).
  split.
  - rewrite (A grouping0 s0) by (vm_compute; reflexivity).
    vm_compute. reflexivity.
  - rewrite C. apply (B grouping0 s0); [vm_compute|]; reflexivity.
Defined.

Lemma groups_are_nonempty_example :
  (forall k ms, In (k, ms) grouping0 -> ms <> [])
  /\ do_move "u" [] s0 = (Ok tt, s0).
Proof.
  destruct (groups_are_nonempty Datetime.strftime_utc Datetime.formats_utc "u" listing0 "%Y%m" s0)
    as (H & _ & _ & H').
  split; [|exact H'].
  intros k ms I.
  assert (E : group_by_date Datetime.strftime_utc Datetime.formats_utc "u" listing0 "%Y%m" s0
              = (Ok grouping0, s0)) by (vm_compute; reflexivity).
  exact (proj1 (H grouping0 s0 E k ms I)).
Defined.

Lemma listed_files_are_relocated_example :
  (forall f, In f listing0 ->
     exists t,
       stat w0 (os_path_join "u" f) = Some (File t)
       /\ stat (fs (snd (main Datetime.strftime_utc Datetime.formats_utc args_move s0)))
            (os_path_join3 "u" (Datetime.strftime_utc t "%Y%m") f)
          = Some (File t)
       /\ os_path_isfile (fs (snd (main Datetime.strftime_utc Datetime.formats_utc args_move s0)))
            (os_path_join "u" f) = false)
  /\ trace (snd (main Datetime.strftime_utc Datetime.formats_utc args_move s0)) =
     map EvPrint (render grouping0) ++ move_events w0 "u" grouping0.
Proof.
  apply (listed_files_are_relocated Datetime.strftime_utc Datetime.formats_utc args_move s0
           (snd (main Datetime.strftime_utc Datetime.formats_utc args_move s0))
           listing0 grouping0); vm_compute; reflexivity.
Defined.

(** C2 as the claim states it fails on the example folder: the run ends
    well, [.hidden] was a regular file of the target directory, and it
    still is one, directly under the target directory. *)
Lemma hidden_file_is_left_behind :
  simulation args_move = false
  /\ fst (main Datetime.strftime_utc Datetime.formats_utc args_move s0) = Ok tt
  /\ ~ every_file_relocated Datetime.strftime_utc args_move s0
         (snd (main Datetime.strftime_utc Datetime.formats_utc args_move s0)).
Proof.
  split; [reflexivity|]. split; [vm_compute; reflexivity|].
  intros H. destruct (H (keys folder) ".hidden" t_jan) as [_ H2].
  - vm_compute. reflexivity.
  - vm_compute. tauto.
  - vm_compute. reflexivity.
  - vm_compute in H2. discriminate.
Qed.

(** A key that is no directory name: with the format ["."] every file
    has the key ["."], each rename is onto the file itself, the run ends
    well and nothing has moved. *)
Lemma dot_key_moves_nothing :
  fst (main Datetime.strftime_utc Datetime.formats_utc args_dot s0) = Ok tt
  /\ fs (snd (main Datetime.strftime_utc Datetime.formats_utc args_dot s0)) = w0
  /\ os_path_isfile w0 (os_path_join "u" "a.txt") = true.
Proof. repeat split; vm_compute; reflexivity. Qed.

(** The name of a moved file can come back as a directory: [202402] is
    moved into [202401], then the group of [b.txt] creates the directory
    [202402]. *)
Lemma moved_name_can_become_directory :
  let s' := snd (main Datetime.strftime_utc Datetime.formats_utc args_move
                   (mkState w_named_like_key [])) in
  fst (main Datetime.strftime_utc Datetime.formats_utc args_move (mkState w_named_like_key []))
  = Ok tt
  /\ os_path_isfile (fs s') "u/202401/202402" = true
  /\ os_path_isfile (fs s') "u/202402" = false
  /\ os_path_isdir (fs s') "u/202402" = true
  /\ filter is_mutation (trace s') =
     [EvMkdir "u/202401"; EvRename "u/202402" "u/202401/202402";
      EvMkdir "u/202402"; EvRename "u/b.txt" "u/202402/b.txt"].
Proof. repeat split; vm_compute; reflexivity. Qed.

(** The second scan is a scan of its own: when [d.txt] appears between
    the preview and the move statement, it is moved and was not
    previewed. *)
Lemma rescan_sees_later_changes :
  let after_preview := snd (preview_phase Datetime.strftime_utc Datetime.formats_utc args_move s0) in
  let s' := snd (move_phase Datetime.strftime_utc Datetime.formats_utc args_move
                   (mkState w_later (trace after_preview))) in
  trace after_preview = map EvPrint (render grouping0)
  /\ ~ In (EvPrint "  - d.txt") (trace after_preview)
  /\ os_path_isfile (fs s') "u/202402/d.txt" = true
  /\ In (EvRename "u/d.txt" "u/202402/d.txt") (trace s').
Proof.
  split; [vm_compute; reflexivity|].
  split; [|split; [vm_compute; reflexivity|vm_compute; tauto]].
  vm_compute. intros H.
  repeat (destruct H as [H|H]; [discriminate|]). exact H.
Qed.

(** The scenario of the specification, with the format [%Y%m]. *)
Lemma scenario_two_months :
  main Datetime.strftime_utc Datetime.formats_utc args_move (mkState w_two_files []) =
  (Ok tt,
   mkState
     (mkWorld
        (Dir 0
           [("home",
             Dir 1
               [("u",
                 Dir 99 [("202401", Dir 99 [("a.txt", File t_jan)]);
                         ("202402", Dir 99 [("b.txt", File t_feb)])])])])
        ["home"] 99)
     [EvPrint "202401:"; EvPrint "  - a.txt";
      EvPrint "202402:"; EvPrint "  - b.txt";
      EvMkdir "u/202401"; EvRename "u/a.txt" "u/202401/a.txt";
      EvMkdir "u/202402"; EvRename "u/b.txt" "u/202402/b.txt"]).
Proof. vm_compute. reflexivity. Qed.

(* ================================================================== *)
(** * Further properties of the functions of the script *)
(* ================================================================== *)

Import MoverSpec.

(** ** [get_file_list]: which targets give a list *)

(** X1. [get_file_list] returns a list exactly when the path names a
    directory. A path that exists and is neither a regular file nor a
    directory gets no diagnostic: [os.listdir] raises, nothing is printed
    and the file system is as before. *)
Theorem get_file_list_returns_on_directories_only (pwd : string)
  (s : state) :
  ((exists l s', get_file_list pwd s = (Ok l, s')) <->
   os_path_isdir (fs s) pwd = true)
  /\ (os_path_exists (fs s) pwd = true ->
      os_path_isfile (fs s) pwd = false ->
      os_path_isdir (fs s) pwd = false ->
      get_file_list pwd s = (Raise OSError, s)).
Proof.
  rewrite get_file_list_run.
  unfold os_path_exists, os_path_isfile, os_path_isdir, os_listdir.
  destruct (stat (fs s) pwd) as [[t|m es|t]|]; simpl; split;
    try (split; [intros (l & s' & H); discriminate|discriminate]);
    try discriminate; try reflexivity.
  split; [reflexivity|]. intros _. eauto.
Qed.

(** X2. The entry [.DS_Store] of the list of system files decides
    nothing: a name it would exclude starts with ["."] and is excluded as
    hidden, so the condition of the comprehension is the one with the two
    other names only. *)
Theorem ds_store_entry_is_redundant (w : world) (pwd f : string) :
  listed w pwd f =
  os_path_isfile w (os_path_join pwd f)
  && negb (str_in f ["desktop.ini"; "thumbs.db"])
  && negb (startswith f ".").
Proof.
  unfold listed, system_files, str_in. cbn [existsb].
  destruct (String.eqb f ".DS_Store") eqn:E.
  - apply String.eqb_eq in E. subst f.
    rewrite !andb_false_r. reflexivity.
  - now rewrite !orb_false_r.
Qed.

(** ** [group_by_date]: failure, growth, size *)


Lemma regroup_app (key : string -> option string) (l1 l2 : list string)
  (g : dict (list string)) :
  regroup key (l1 ++ l2) g =
  match regroup key l1 g with
  | Some g1 => regroup key l2 g1
  | None => None
  end.
Proof.
  revert g. induction l1 as [|x l1 IH]; intros g; simpl; [reflexivity|].
  destruct (key x); auto.
Qed.

Lemma keys_met_app (key : string -> option string) (l1 l2 : list string) :
  keys_met key (l1 ++ l2) = keys_met key l1 ++ keys_met key l2.
Proof.
  induction l1 as [|x l1 IH]; simpl; [reflexivity|].
  destruct (key x); simpl; now rewrite IH.
Qed.

Lemma first_occurrences_app (a b : list string) :
  starts_with (first_occurrences a) (first_occurrences (a ++ b)).
Proof.
  induction b as [|x b IH] using rev_ind.
  - exists []. now rewrite !app_nil_r.
  - destruct IH as [rest E]. rewrite app_assoc, first_occurrences_snoc, E.
    destruct (in_dec string_dec x (a ++ b)).
    + now exists rest.
    + exists (rest ++ [x]). now rewrite app_assoc.
Qed.

Section GroupingMore.
Variable strftime : Z -> string -> string.
Variable formats : Z -> string -> bool.




(** X4. Grouping a longer list extends the grouping of its beginning:
    when [group_by_date] returns on [l1 ++ l2], it returns on [l1] too,
    the keys of that grouping begin the keys of the longer one, and every
    group of it begins the group of the same key. *)
Theorem group_by_date_extends (pwd : string) (l1 l2 : list string)
  (date_format : string) (s : state) (g : dict (list string)) :
  group_by_date strftime formats pwd (l1 ++ l2) date_format s = (Ok g, s) ->
  exists g1,
    group_by_date strftime formats pwd l1 date_format s = (Ok g1, s)
    /\ starts_with (keys g1) (keys g)
    /\ forall k ms1, In (k, ms1) g1 ->
         exists ms, In (k, ms) g /\ starts_with ms1 ms.
Proof.
  intros H. apply group_by_date_ok in H. destruct H as [_ R].
  set (key := time_key strftime formats (fs s) pwd date_format) in *.
  pose proof R as R'. rewrite regroup_app in R'.
  destruct (regroup key l1 []) as [g1|] eqn:R1; [|discriminate].
  exists g1. split; [rewrite group_by_date_run; fold key; now rewrite R1|].
  destruct (regroup_spec key _ _ R) as (Hk & _).
  destruct (regroup_spec key _ _ R1) as (Hk1 & _).
  split.
  - rewrite Hk, Hk1, keys_met_app. apply first_occurrences_app.
  - intros k ms1 I. apply (regroup_item key _ _ _ _ R1) in I.
    destruct I as [-> N].
    exists (members_of key k (l1 ++ l2)). split.
    + apply (regroup_item key _ _ _ _ R). split; [reflexivity|].
      unfold members_of in *. rewrite filter_app.
      destruct (filter _ l1); [congruence|discriminate].
    + exists (members_of key k l2). unfold members_of. apply filter_app.
Qed.




End GroupingMore.

(** ** What a simulation shows, and a key that is no directory *)

Lemma filter_print_of_mutations (evs : list event) :
  forallb is_mutation evs = true -> filter is_print evs = [].
Proof.
  induction evs as [|e evs IH]; simpl; [reflexivity|].
  unfold is_mutation at 1. destruct (is_print e); simpl; [discriminate|].
  exact IH.
Qed.

Section SimulationMore.
Variable strftime : Z -> string -> string.
Variable formats : Z -> string -> bool.

(** X6. A simulation prints exactly what the run proper prints: with the
    same folder and format, the printed lines of a run are those of the
    simulation, whatever the flag and however the run ends. *)
Theorem simulation_prints_what_the_run_prints (a : args) (s : state) :
  printed (trace (snd (main strftime formats a s))) =
  printed (trace (snd (main strftime formats (with_simulation a true) s))).
Proof.
  assert (Sc : scan strftime formats (with_simulation a true) s = scan strftime formats a s)
    by reflexivity.
  destruct (scan strftime formats a s) as [[g|c|e] s1] eqn:S.
  - rewrite (main_run_ok _ _ _ _ _ _ S).
    rewrite (main_run_ok _ _ _ _ _ _ Sc). simpl.
    destruct (simulation a); [reflexivity|].
    destruct (do_move (folder_path a) g
                (mkState (fs s) (trace s ++ map EvPrint (render g))))
      as [o s2] eqn:D.
    destruct (moves_only_do_move _ _ _ _ _ D) as (_ & evs & A & F).
    unfold added in A. simpl in *. rewrite A. unfold printed.
    rewrite (filter_app _ _ evs), (filter_print_of_mutations _ F).
    now rewrite app_nil_r.
  - rewrite (main_fail_state strftime formats a s)
      by (intros g s2; rewrite S; discriminate).
    rewrite (main_fail_state strftime formats (with_simulation a true) s)
      by (intros g s2; rewrite Sc; discriminate).
    now rewrite Sc, S.
  - rewrite (main_fail_state strftime formats a s)
      by (intros g s2; rewrite S; discriminate).
    rewrite (main_fail_state strftime formats (with_simulation a true) s)
      by (intros g s2; rewrite Sc; discriminate).
    now rewrite Sc, S.
Qed.

End SimulationMore.

Lemma isdir_target (w : world) (pwd : string) :
  os_path_isdir w pwd = true -> exists T E, target_is w pwd T E.
Proof.
  unfold os_path_isdir.
  destruct (stat w pwd) as [[|m E|]|] eqn:S; try discriminate. intros _.
  destruct (stat_inv _ _ _ S) as (T & R & G & _).
  exists T, E. split; eauto.
Qed.

(** X7. A key that names something other than a directory stops the
    Mover at once: when [pwd/<key>] exists and is no directory, the first
    rename of the group of a regular file raises, and nothing has been
    created or moved. *)
Theorem do_move_refuses_key_that_is_no_directory (pwd k f : string)
  (files : list string) (gs : dict (list string)) (s : state) :
  os_path_isdir (fs s) pwd = true ->
  valid_name k = true -> valid_name f = true ->
  os_path_exists (fs s) (os_path_join pwd k) = true ->
  os_path_isdir (fs s) (os_path_join pwd k) = false ->
  os_path_isfile (fs s) (os_path_join pwd f) = true ->
  do_move pwd ((k, f :: files) :: gs) s = (Raise OSError, s).
Proof.
  intros Hd Hk Hf Ex Nd Isf.
  destruct (isdir_target _ _ Hd) as (T & E & Ht).
  unfold os_path_exists, os_path_isdir in *. unfold os_path_isfile in Isf.
  rewrite (target_stat _ _ _ _ Ht k Hk) in Ex, Nd.
  rewrite (target_stat _ _ _ _ Ht f Hf) in Isf.
  destruct (dict_find E k) as [nk|] eqn:Fk; [|discriminate].
  destruct (dict_find E f) as [[t| |]|] eqn:Ff; try discriminate.
  unfold do_move. cbn [for_each]. unfold bind at 1. unfold move_group.
  unfold bind at 1. unfold ask, os_path_exists.
  rewrite (target_stat _ _ _ _ Ht k Hk), Fk. simpl negb. cbv iota.
  unfold bind at 1. unfold ret at 1. cbn [for_each]. unfold bind at 1.
  unfold rename at 1, mutate.
  destruct (os_rename (fs s) (os_path_join pwd f) (os_path_join3 pwd k f))
    as [w1|] eqn:R; [|reflexivity].
  destruct (rename_local _ _ _ _ Ht f k t nk w1 Hf Hk Ff Fk R)
    as (mk & Ek & -> & _).
  discriminate.
Qed.

(** ** System calls leave the rest of the tree alone *)

Lemma update_at_other (p : location) (f : node -> option node)
  (n n' : node) (q : location) :
  update_at p f n = Some n' ->
  is_prefix p q = false -> is_prefix q p = false ->
  get n' q = get n q.
Proof.
  revert n n' q. induction p as [|c p IH]; intros n n' q; simpl.
  - discriminate.
  - destruct n as [|m es|]; try discriminate.
    destruct (dict_find es c) as [ch|] eqn:F; [|discriminate].
    destruct (update_at p f ch) as [ch'|] eqn:U; [|discriminate].
    intros [= <-]. destruct q as [|c' q]; [discriminate|]. simpl.
    destruct (String.eqb c c') eqn:X.
    + apply String.eqb_eq in X. subst c'. rewrite String.eqb_refl.
      simpl. intros P1 P2. rewrite dict_find_set_same, F.
      now apply (IH ch ch').
    + intros _ _. apply String.eqb_neq in X.
      rewrite dict_find_set_other by congruence. reflexivity.
Qed.

Lemma same_outside_refl (T : location) (r : node) : same_outside T r r.
Proof. intros q _ _. reflexivity. Qed.

Lemma same_outside_trans (T : location) (a b c : node) :
  same_outside T a b -> same_outside T b c -> same_outside T a c.
Proof. intros H1 H2 q P1 P2. rewrite H2, H1; auto. Qed.

Lemma mkdir_outside (w w' : world) (pwd : string) (T : location)
  (E : dict node) (k : string) :
  target_is w pwd T E -> valid_name k = true ->
  os_mkdir w (os_path_join pwd k) = Some w' ->
  same_outside T (root w) (root w') /\ cwd w' = cwd w.
Proof.
  intros Ht Hk. pose proof (target_nonempty _ _ _ _ Ht) as Np.
  destruct Ht as [R [m G]]. unfold os_mkdir.
  rewrite (locate_join w pwd k T Np Hk R).
  destruct (get (root w) (T ++ [k])); [discriminate|].
  destruct (update_at T _ (root w)) as [r'|] eqn:U; [|discriminate].
  intros [= <-]. split; [|reflexivity].
  intros q P1 P2. simpl. eapply update_at_other; eauto.
Qed.

Lemma rename_outside (w w' : world) (pwd : string) (T : location)
  (E : dict node) (f k : string) (nk : node) :
  target_is w pwd T E -> valid_name f = true -> valid_name k = true ->
  dict_find E k = Some nk ->
  os_rename w (os_path_join pwd f) (os_path_join3 pwd k f) = Some w' ->
  same_outside T (root w) (root w') /\ cwd w' = cwd w.
Proof.
  intros Ht Hf Hk Fk. pose proof (target_nonempty _ _ _ _ Ht) as Np.
  destruct (target_resolve_entry _ _ _ _ Ht k nk Hk Fk) as [Rk Gk].
  pose proof (join_nonempty _ _ _ _ Ht k Hk) as Nk.
  destruct Ht as [R [m G]]. unfold os_rename, os_path_join3.
  rewrite (locate_join w pwd f T Np Hf R).
  rewrite (locate_join w _ f _ Nk Hf Rk).
  destruct (get (root w) (T ++ [f])) as [n|]; [|discriminate].
  rewrite Gk. destruct nk as [|mk Ek|]; try discriminate.
  destruct (andb _ (negb (is_dir n))); [discriminate|].
  rewrite location_eqb_longer.
  destruct (andb (is_dir n) _); [discriminate|].
  destruct (may_replace n _); [|discriminate].
  destruct (update_at T (dir_remove (now w) f) (root w)) as [r1|] eqn:U1;
    [|discriminate].
  destruct (update_at (T ++ [k]) (dir_set (now w) f n) r1)
    as [r2|] eqn:U2; [|discriminate].
  intros [= <-]. split; [|reflexivity].
  rewrite update_at_app in U2.
  intros q P1 P2. simpl.
  rewrite (update_at_other _ _ _ _ q U2 P1 P2).
  exact (update_at_other _ _ _ _ q U1 P1 P2).
Qed.

(** ** The entries the Mover leaves alone *)

Lemma names_valid_mkdir (E : dict node) (k : string) (D : node) :
  names_valid E -> valid_name k = true -> names_valid (dict_set E k D).
Proof.
  intros H Hk x n. rewrite find_after_mkdir.
  destruct (String.eqb x k) eqn:X.
  - apply String.eqb_eq in X. now subst.
  - apply H.
Qed.

Lemma names_valid_rename (E : dict node) (f k : string) (D : node) :
  names_valid E -> valid_name k = true -> k <> f ->
  names_valid (dict_set (dict_del E f) k D).
Proof.
  intros H Hk N x n. rewrite find_after_rename by exact N.
  destruct (String.eqb x k) eqn:X.
  - apply String.eqb_eq in X. now subst.
  - destruct (String.eqb x f); [discriminate|]. apply H.
Qed.

Lemma frame_mkdir (E0 E : dict node) (L K : list string) (k : string)
  (D : node) :
  frame_inv E0 E L K -> In k K -> frame_inv E0 (dict_set E k D) L K.
Proof.
  intros H Ik x NL NK. rewrite find_after_mkdir.
  destruct (String.eqb x k) eqn:X; [|now apply H].
  apply String.eqb_eq in X. subst. contradiction.
Qed.

Lemma frame_rename (E0 E : dict node) (L K : list string) (f k : string)
  (D : node) :
  frame_inv E0 E L K -> In f L -> In k K -> k <> f ->
  frame_inv E0 (dict_set (dict_del E f) k D) L K.
Proof.
  intros H If Ik N x NL NK. rewrite find_after_rename by exact N.
  destruct (String.eqb x k) eqn:X.
  { apply String.eqb_eq in X. subst. contradiction. }
  destruct (String.eqb x f) eqn:Y; [|now apply H].
  apply String.eqb_eq in Y. subst. contradiction.
Qed.

Lemma subdir_mkdir (E0 E : dict node) (L : list string) (k : string)
  (D : node) :
  subdir_inv E0 E L -> dict_find E k = None ->
  (forall x, is_dir_opt (dict_find E0 x) = true ->
             is_dir_opt (dict_find E x) = true) ->
  subdir_inv E0 (dict_set E k D) L.
Proof.
  intros H Fk D1 x y NL Dx. unfold entry2. rewrite find_after_mkdir.
  destruct (String.eqb x k) eqn:X; [|now apply H].
  apply String.eqb_eq in X. subst. specialize (D1 _ Dx).
  now rewrite Fk in D1.
Qed.

Lemma subdir_rename (E0 E : dict node) (L : list string) (f k : string)
  (t t' mk : Z) (Ek : dict node) :
  subdir_inv E0 E L -> In f L ->
  dict_find E f = Some (File t) -> dict_find E k = Some (Dir mk Ek) ->
  (forall x, is_dir_opt (dict_find E0 x) = true ->
             is_dir_opt (dict_find E x) = true) ->
  subdir_inv E0
    (dict_set (dict_del E f) k (Dir t' (dict_set Ek f (File t)))) L.
Proof.
  intros H If Ff Fk D1 x y NL Dx.
  assert (N : k <> f) by (intros ->; congruence).
  specialize (H x y NL Dx). unfold entry2 in *.
  rewrite find_after_rename by exact N.
  destruct (String.eqb x k) eqn:X.
  - apply String.eqb_eq in X. subst x. rewrite Fk in H.
    rewrite dict_find_set_other; [exact H|]. intros ->. contradiction.
  - destruct (String.eqb x f) eqn:Y; [|exact H].
    apply String.eqb_eq in Y. subst x. specialize (D1 _ Dx).
    now rewrite Ff in D1.
Qed.

(** ** The loops of [do_move], however they end *)

Section MoverAnyOutcome.
Variables (w0 : world) (pwd : string) (T : location) (E0 : dict node).
Variables (L K : list string).

Lemma exists_entry (w : world) (E : dict node) (k : string) :
  target_is w pwd T E -> valid_name k = true ->
  os_path_exists w (os_path_join pwd k) = true ->
  exists nk, dict_find E k = Some nk.
Proof.
  intros Ht Hk. unfold os_path_exists.
  rewrite (target_stat _ _ _ _ Ht k Hk).
  destruct (dict_find E k); [eauto|discriminate].
Qed.

Lemma inv_after_mkdir (w w' : world) pending placed (k : string) :
  run_inv w0 pwd T E0 L K w pending placed -> valid_name k = true -> In k K ->
  os_mkdir w (os_path_join pwd k) = Some w' ->
  run_inv w0 pwd T E0 L K w' pending placed
  /\ os_path_exists w' (os_path_join pwd k) = true.
Proof.
  intros (E & Ht & Mi & Fr & Sd & Nv & So & Cw) Hk Ik Mk.
  destruct (mkdir_local _ _ _ _ Ht k w' Hk Mk) as (Fk & Ht').
  destruct (mkdir_outside _ _ _ _ _ _ Ht Hk Mk) as (So' & Cw').
  split.
  - exists (dict_set E k (Dir (now w) [])).
    split; [exact Ht'|]. split; [now apply inv_mkdir|].
    split; [now apply frame_mkdir|].
    split; [apply subdir_mkdir; auto; apply Mi|].
    split; [now apply names_valid_mkdir|].
    split; [eapply same_outside_trans; eauto|congruence].
  - unfold os_path_exists.
    now rewrite (target_stat _ _ _ _ Ht' k Hk), dict_find_set_same.
Qed.

Lemma inv_after_rename (w w' : world) pending placed (f k : string) :
  run_inv w0 pwd T E0 L K w (f :: pending) placed -> ~ In f pending ->
  valid_name f = true -> valid_name k = true -> In f L -> In k K ->
  os_path_exists w (os_path_join pwd k) = true ->
  os_rename w (os_path_join pwd f) (os_path_join3 pwd k f) = Some w' ->
  run_inv w0 pwd T E0 L K w' pending (placed ++ [(k, f)])
  /\ os_path_exists w' (os_path_join pwd k) = true.
Proof.
  intros (E & Ht & Mi & Fr & Sd & Nv & So & Cw) Nf Hf Hk If Ik Ex Rn.
  destruct (exists_entry _ _ _ Ht Hk Ex) as [nk Fk].
  destruct Mi as (A & Mi').
  destruct (A f (or_introl eq_refl)) as (t & F0 & Ff).
  destruct (rename_local _ _ _ _ Ht f k t nk w' Hf Hk Ff Fk Rn)
    as (mk & Ek & -> & Ht').
  destruct (rename_outside _ _ _ _ _ _ _ _ Ht Hf Hk Fk Rn) as (So' & Cw').
  assert (N : k <> f) by (intros ->; congruence).
  split.
  - exists (dict_set (dict_del E f) k
              (Dir (now w) (dict_set Ek f (File t)))).
    split; [exact Ht'|].
    split; [apply inv_rename with (mk := mk); auto; split; auto|].
    split; [now apply frame_rename|].
    split; [apply subdir_rename with (mk := mk); auto; apply Mi'|].
    split; [now apply names_valid_rename|].
    split; [eapply same_outside_trans; eauto|congruence].
  - unfold os_path_exists.
    now rewrite (target_stat _ _ _ _ Ht' k Hk), dict_find_set_same.
Qed.

Lemma renames_any (k : string) (files : list string) :
  valid_name k = true -> In k K ->
  forall (s s' : state) (o : outcome unit) pending placed,
    run_inv w0 pwd T E0 L K (fs s) (files ++ pending) placed ->
    NoDup (files ++ pending) ->
    (forall f, In f files -> valid_name f = true /\ In f L) ->
    os_path_exists (fs s) (os_path_join pwd k) = true ->
    for_each files
      (fun file => rename (os_path_join pwd file)
                     (os_path_join3 pwd k file)) s = (o, s') ->
    exists done rest,
      files = done ++ rest
      /\ run_inv w0 pwd T E0 L K (fs s') (rest ++ pending) (placed ++ map (pair k) done)
      /\ (o = Ok tt -> rest = []).
Proof.
  intros Hk Ik. induction files as [|f files IH];
    intros s s' o pending placed Inv ND Hv Ex; cbn [for_each].
  - intros [= <- <-]. exists [], []. simpl. rewrite app_nil_r. auto.
  - unfold bind at 1. unfold rename at 1, mutate.
    destruct (os_rename (fs s) (os_path_join pwd f)
                (os_path_join3 pwd k f)) as [w1|] eqn:R.
    + intros Run. inversion ND as [|? ? Nf ND']; subst.
      destruct (Hv f (or_introl eq_refl)) as [Vf Lf].
      destruct (inv_after_rename _ _ _ _ _ _ Inv Nf Vf Hk Lf Ik Ex R)
        as [Inv1 Ex1].
      destruct (IH (mkState w1 _) s' o pending (placed ++ [(k, f)])
                  Inv1 ND' (fun f' I => Hv f' (or_intror I)) Ex1 Run)
        as (done & rest & -> & Inv2 & Ho).
      exists (f :: done), rest. split; [reflexivity|].
      split; [|exact Ho]. simpl. now rewrite <- app_assoc in Inv2.
    + intros [= <- <-]. exists [], (f :: files). simpl.
      rewrite app_nil_r. split; [reflexivity|]. split; [exact Inv|].
      discriminate.
Qed.

Lemma move_group_any (k : string) (files : list string)
  (s s' : state) (o : outcome unit) pending placed :
  valid_name k = true -> In k K ->
  run_inv w0 pwd T E0 L K (fs s) (files ++ pending) placed ->
  NoDup (files ++ pending) ->
  (forall f, In f files -> valid_name f = true /\ In f L) ->
  move_group pwd (k, files) s = (o, s') ->
  exists done rest,
    files = done ++ rest
    /\ run_inv w0 pwd T E0 L K (fs s') (rest ++ pending) (placed ++ map (pair k) done)
    /\ (o = Ok tt -> rest = []).
Proof.
  intros Hk Ik Inv ND Hv. unfold move_group.
  unfold bind at 1. unfold ask.
  destruct (os_path_exists (fs s) (os_path_join pwd k)) eqn:Ex.
  - simpl negb. cbv iota. unfold bind at 1. unfold ret at 1.
    now apply renames_any.
  - simpl negb. cbv iota. unfold bind at 1. unfold mkdir at 1, mutate.
    destruct (os_mkdir (fs s) (os_path_join pwd k)) as [w1|] eqn:Mk.
    + destruct (inv_after_mkdir _ _ _ _ _ Inv Hk Ik Mk) as [Inv1 Ex1].
      now apply (renames_any k files Hk Ik (mkState w1 _)).
    + intros [= <- <-]. exists [], files. simpl. rewrite app_nil_r.
      split; [reflexivity|]. split; [exact Inv|]. discriminate.
Qed.

Lemma in_pairs_files (gs : dict (list string)) (k f : string) :
  In (k, f) (pairs_of gs) -> In f (List.concat (map snd gs)).
Proof.
  unfold pairs_of. rewrite in_flat_map. intros ([k' ms] & I & J).
  simpl in J. apply in_map_iff in J. destruct J as (f' & [= <- <-] & J).
  apply in_concat. exists ms. split; [|exact J].
  apply in_map_iff. now exists (k', ms).
Qed.

Lemma do_move_any (gs : dict (list string)) :
  forall (s s' : state) (o : outcome unit) placed,
    run_inv w0 pwd T E0 L K (fs s) (List.concat (map snd gs)) placed ->
    NoDup (List.concat (map snd gs)) ->
    (forall f, In f (List.concat (map snd gs)) ->
               valid_name f = true /\ In f L) ->
    (forall k, In k (keys gs) -> valid_name k = true /\ In k K) ->
    do_move pwd gs s = (o, s') ->
    exists pending' placed',
      run_inv w0 pwd T E0 L K (fs s') pending' placed'
      /\ (forall kf, In kf placed -> In kf placed')
      /\ (forall k f, In (k, f) (pairs_of gs) ->
                      In f pending' \/ In (k, f) placed')
      /\ (o = Ok tt -> pending' = []).
Proof.
  unfold do_move. induction gs as [|[k files] gs IH];
    intros s s' o placed Inv ND Hv Hk; cbn [for_each].
  - intros [= <- <-]. exists [], placed. simpl in *. repeat split; auto.
  - unfold bind at 1.
    destruct (move_group pwd (k, files) s) as [o1 s1] eqn:G.
    simpl in Inv, ND, Hv, Hk.
    destruct (Hk k (or_introl eq_refl)) as [Vk Ik].
    destruct (move_group_any k files s s1 o1 _ placed Vk Ik Inv ND
                (fun f I => Hv f (in_or_app _ _ _ (or_introl I))) G)
      as (done & rest & -> & Inv1 & Ho).
    assert (Stop : o1 <> Ok tt -> (o1, s1) = (o, s') ->
              exists pending' placed',
                run_inv w0 pwd T E0 L K (fs s') pending' placed'
                /\ (forall kf, In kf placed -> In kf placed')
                /\ (forall k0 f, In (k0, f)
                                   (pairs_of ((k, done ++ rest) :: gs)) ->
                                 In f pending' \/ In (k0, f) placed')
                /\ (o = Ok tt -> pending' = [])).
    { intros No [= <- <-].
      exists (rest ++ List.concat (map snd gs)),
             (placed ++ map (pair k) done).
      split; [exact Inv1|]. split; [intros kf I; apply in_or_app; auto|].
      split; [|intros X; contradiction].
      intros k0 f I. unfold pairs_of in I. cbn [flat_map fst snd] in I.
      apply in_app_or in I. destruct I as [I|I].
      - apply in_map_iff in I. destruct I as (f' & [= <- <-] & I).
        apply in_app_or in I. destruct I as [I|I].
        + right. apply in_or_app. right. now apply in_map.
        + left. apply in_or_app. now left.
      - left. apply in_or_app. right. now apply (in_pairs_files gs k0). }
    destruct o1 as [[]|c|e];
      [|apply Stop; discriminate|apply Stop; discriminate].
    specialize (Ho eq_refl). subst rest. rewrite app_nil_r in *.
    simpl in Inv1. intros Run.
    assert (ND1 : NoDup (List.concat (map snd gs)))
      by now apply NoDup_app_remove_l in ND.
    assert (Hv1 : forall f, In f (List.concat (map snd gs)) ->
                            valid_name f = true /\ In f L)
      by (intros f I; apply Hv; apply in_or_app; now right).
    assert (Hk1 : forall k', In k' (keys gs) ->
                             valid_name k' = true /\ In k' K)
      by (intros k' I; apply Hk; now right).
    destruct (IH s1 s' o (placed ++ map (pair k) done) Inv1 ND1 Hv1 Hk1 Run)
      as (pending' & placed' & Inv2 & Inc & Cov & Ho').
    exists pending', placed'. split; [exact Inv2|].
    split; [intros kf I; apply Inc; apply in_or_app; now left|].
    split; [|exact Ho'].
    intros k0 f I. unfold pairs_of in I. cbn [flat_map fst snd] in I.
    apply in_app_or in I. destruct I as [I|I].
    + right. apply Inc. apply in_or_app. now right.
    + now apply Cov.
Qed.

End MoverAnyOutcome.

(** ** A run of [main] that moves, however it ends *)

Lemma in_keys_find {V} (d : dict V) (k : string) :
  In k (keys d) -> exists v, dict_find d k = Some v.
Proof.
  induction d as [|[k' v'] d IH]; simpl; [tauto|].
  destruct (String.eqb k k') eqn:E; [eauto|].
  apply String.eqb_neq in E. intros [H|H]; [congruence|auto].
Qed.

Lemma filter_none {A} (p : A -> bool) (l : list A) :
  (forall x, In x l -> p x = false) -> filter p l = [].
Proof.
  induction l as [|x l IH]; simpl; intros H; [reflexivity|].
  rewrite (H x) by now left. apply IH. intros y I. apply H. now right.
Qed.

Lemma pairs_of_in (g : dict (list string)) (k f : string) :
  In (k, f) (pairs_of g) <-> exists ms, In (k, ms) g /\ In f ms.
Proof.
  unfold pairs_of. rewrite in_flat_map. split.
  - intros ([k' ms] & I & J). simpl in J. apply in_map_iff in J.
    destruct J as (f' & [= <- <-] & J). eauto.
  - intros (ms & I & J). exists (k, ms). split; [exact I|].
    simpl. now apply in_map.
Qed.

Section MainAnyOutcome.
Variable strftime : Z -> string -> string.
Variable formats : Z -> string -> bool.

(** What the scan of a well-formed tree has established when the Mover
    starts, and what holds when it stops. *)
Lemma main_move_any (a : args) (s s' : state) (o : outcome unit)
  (l : list string) (g : dict (list string)) :
  let pwd := folder_path a in
  wf_world (fs s) = true ->
  simulation a = false ->
  get_file_list pwd s = (Ok l, s) ->
  group_by_date strftime formats pwd l (date_string a) s = (Ok g, s) ->
  forallb valid_name (keys g) = true ->
  main strftime formats a s = (o, s') ->
  exists T E0 pending placed,
    target_is (fs s) pwd T E0
    /\ run_inv (fs s) pwd T E0 l (keys g) (fs s') pending placed
    /\ (forall k f, In (k, f) (pairs_of g) ->
                    In f pending \/ In (k, f) placed)
    /\ (o = Ok tt -> pending = [])
    /\ l = filter (listed (fs s) pwd) (keys E0)
    /\ (forall f, In f l ->
          valid_name f = true
          /\ exists t, dict_find E0 f = Some (File t)
                       /\ In (strftime t (date_string a), f) (pairs_of g))
    /\ (forall k f, In (k, f) (pairs_of g) ->
          In f l /\ valid_name k = true
          /\ exists t, dict_find E0 f = Some (File t)
                       /\ k = strftime t (date_string a))
    /\ (forall k, In k (keys g) -> exists f, In (k, f) (pairs_of g))
    /\ (forall f t, In f l -> dict_find E0 f = Some (File t) ->
                    formats t (date_string a) = true).
Proof.
  intros pwd W Sim Hl Hg Hkeys Run.
  assert (Sc : scan strftime formats a s = (Ok g, s)).
  { unfold scan, bind. fold pwd. now rewrite Hl, Hg. }
  rewrite (main_run_ok _ _ _ _ _ _ Sc), Sim in Run. cbv zeta in Run.
  fold pwd in Run.
  destruct (get_file_list_ok pwd s l W Hl) as (T & E0 & Ht & NDl & Hfl).
  assert (El : l = filter (listed (fs s) pwd) (keys E0)).
  { rewrite get_file_list_run in Hl.
    destruct (os_path_exists (fs s) pwd); simpl in Hl; [|discriminate].
    destruct (os_path_isfile (fs s) pwd); [discriminate|].
    unfold os_listdir in Hl. destruct Ht as [R [m G]].
    unfold stat in Hl. rewrite R, G in Hl. now injection Hl as <-. }
  assert (Nv0 : names_valid E0).
  { intros x n F. destruct Ht as [R [m G]].
    assert (Wd : wf_node (Dir m E0) = true) by (eapply wf_get; eauto).
    destruct (wf_dir_inv _ _ Wd) as (_ & Hv & _).
    apply Hv. eapply dict_find_keys; eauto. }
  apply group_by_date_ok in Hg. destruct Hg as [_ R].
  set (key := time_key strftime formats (fs s) pwd (date_string a)) in *.
  destruct (regroup_spec key _ _ R) as (_ & _ & Perm & Hdef).
  assert (Hmem : forall f, In f (List.concat (map snd g)) <-> In f l).
  { intros f. split; apply Permutation_in; [exact Perm|].
    now apply Permutation_sym. }
  assert (Kf : forall f t, In f l -> dict_find E0 f = Some (File t) ->
                 key f = Some (strftime t (date_string a))
                 /\ formats t (date_string a) = true).
  { intros f t I F. destruct (Hfl f I) as (Vf & _).
    rewrite Forall_forall in Hdef. specialize (Hdef f I). revert Hdef.
    unfold key, time_key, os_path_getmtime.
    rewrite (target_stat _ _ _ _ Ht f Vf), F. simpl.
    destruct (formats t (date_string a)); [split; reflexivity|congruence]. }
  assert (Inv0 : run_inv (fs s) pwd T E0 l (keys g) (fs s)
                   (List.concat (map snd g)) []).
  { exists E0. split; [exact Ht|]. split.
    - split; [|split; [|split; [|split]]]; auto.
      + intros f I. apply Hmem in I. destruct (Hfl f I) as (_ & t & F).
        now exists t.
      + intros k f [].
      + intros k f [].
    - split; [intros x _ _; reflexivity|].
      split; [intros k y _ _; reflexivity|].
      split; [exact Nv0|]. split; [apply same_outside_refl|reflexivity]. }
  destruct (do_move_any (fs s) pwd T E0 l (keys g) g
              (mkState (fs s) (trace s ++ map EvPrint (render g))) s' o []
              Inv0)
    as (pending & placed & Inv & _ & Cov & Ho).
  { eapply Permutation_NoDup; [apply Permutation_sym; exact Perm|exact NDl]. }
  { intros f I. apply Hmem in I. split; [now apply Hfl|exact I]. }
  { intros k I. split; [now apply (forallb_valid _ Hkeys)|exact I]. }
  { exact Run. }
  exists T, E0, pending, placed.
  split; [exact Ht|]. split; [exact Inv|]. split; [exact Cov|].
  split; [exact Ho|]. split; [exact El|]. split; [|split; [|split]].
  - intros f I. destruct (Hfl f I) as (Vf & t & F). split; [exact Vf|].
    exists t. split; [exact F|]. apply pairs_of_in.
    exists (members_of key (strftime t (date_string a)) l).
    assert (J : In f (members_of key (strftime t (date_string a)) l))
      by (apply members_of_in; split; [exact I|apply (Kf f t I F)]).
    split; [|exact J].
    apply (regroup_item key _ _ _ _ R). split; [reflexivity|].
    intros Em. now rewrite Em in J.
  - intros k f I. apply pairs_of_in in I. destruct I as (ms & I & J).
    assert (Vk : valid_name k = true).
    { apply (forallb_valid _ Hkeys). unfold keys. apply in_map_iff.
      now exists (k, ms). }
    apply (regroup_item key _ _ _ _ R) in I. destruct I as [-> _].
    apply members_of_in in J. destruct J as [J Kk].
    split; [exact J|]. split; [exact Vk|].
    destruct (Hfl f J) as (_ & t & F). exists t. split; [exact F|].
    rewrite (proj1 (Kf f t J F)) in Kk. congruence.
  - intros k I. unfold keys in I. apply in_map_iff in I.
    destruct I as ([k' ms] & <- & I). simpl.
    pose proof I as I'. apply (regroup_item key _ _ _ _ R) in I'.
    destruct I' as [_ N]. destruct ms as [|f ms]; [congruence|].
    exists f. apply pairs_of_in. exists (f :: ms). split; [exact I|now left].
  - intros f t I F. apply (Kf f t I F).
Qed.

End MainAnyOutcome.

Section MoveSafety.
Variable strftime : Z -> string -> string.
Variable formats : Z -> string -> bool.

(** X8. No listed file is lost, however the run ends: after a run that
    is not a simulation, on a well-formed tree and with keys that are
    directory names, every file that [get_file_list] had listed is a
    regular file with its last-modified time either where it was or at
    [pwd/<key>/<name>] - also when a [mkdir] or [rename] raised
    part-way. *)
Theorem no_listed_file_is_lost (a : args) (s s' : state)
  (o : outcome unit) (l : list string) (g : dict (list string)) :
  let pwd := folder_path a in
  wf_world (fs s) = true ->
  simulation a = false ->
  get_file_list pwd s = (Ok l, s) ->
  group_by_date strftime formats pwd l (date_string a) s = (Ok g, s) ->
  forallb valid_name (keys g) = true ->
  main strftime formats a s = (o, s') ->
  forall f, In f l ->
    exists t,
      stat (fs s) (os_path_join pwd f) = Some (File t)
      /\ (stat (fs s') (os_path_join pwd f) = Some (File t)
          \/ stat (fs s')
               (os_path_join3 pwd (strftime t (date_string a)) f)
             = Some (File t)).
Proof.
  intros pwd W Sim Hl Hg Hkeys Run f I.
  destruct (main_move_any strftime formats a s s' o l g W Sim Hl Hg Hkeys Run)
    as (T & E0 & pending & placed & Ht & Inv & Cov & _ & _ & Fl & Fp & _).
  fold pwd in Ht, Inv.
  destruct (Fl f I) as (Vf & t & F0 & Ip).
  exists t. split; [now rewrite (target_stat _ _ _ _ Ht f Vf)|].
  destruct Inv as (E & Ht' & (A & B & _) & _).
  destruct (Cov _ _ Ip) as [J|J].
  - left. destruct (A f J) as (t1 & F1 & F2).
    rewrite (target_stat _ _ _ _ Ht' f Vf). congruence.
  - right. destruct (B _ _ J) as (t1 & F1 & P).
    destruct (Fp _ _ Ip) as (_ & Vk & _).
    assert (exists nk, dict_find E (strftime t (date_string a)) = Some nk)
      as [nk Fk].
    { unfold entry2 in P.
      destruct (dict_find E (strftime t (date_string a))); [eauto|].
      discriminate. }
    rewrite (target_stat2 _ _ _ _ Ht' _ f nk Vk Vf Fk). congruence.
Qed.

(** X9. What the Mover leaves alone inside the target directory, however
    the run ends, on a well-formed tree and with Group Keys that are
    directory names (non-empty, not [.] or [..], without [/]): an entry
    that is neither a listed file nor named like a Group Key is the node
    it was (a hidden file, a system file, a subdirectory with all it
    holds); and in a directory that was there before the run, an entry
    that does not bear the name of a listed file is the node it was. *)
Theorem unlisted_entries_are_untouched (a : args) (s s' : state)
  (o : outcome unit) (l : list string) (g : dict (list string)) :
  let pwd := folder_path a in
  wf_world (fs s) = true ->
  simulation a = false ->
  get_file_list pwd s = (Ok l, s) ->
  group_by_date strftime formats pwd l (date_string a) s = (Ok g, s) ->
  forallb valid_name (keys g) = true ->
  main strftime formats a s = (o, s') ->
  (forall x, valid_name x = true -> ~ In x l -> ~ In x (keys g) ->
     stat (fs s') (os_path_join pwd x) = stat (fs s) (os_path_join pwd x))
  /\ (forall k y, valid_name k = true -> valid_name y = true ->
        ~ In y l ->
        os_path_isdir (fs s) (os_path_join pwd k) = true ->
        stat (fs s') (os_path_join3 pwd k y) =
        stat (fs s) (os_path_join3 pwd k y)).
Proof.
  intros pwd W Sim Hl Hg Hkeys Run.
  destruct (main_move_any strftime formats a s s' o l g W Sim Hl Hg Hkeys Run)
    as (T & E0 & pending & placed & Ht & Inv & _).
  fold pwd in Ht, Inv.
  destruct Inv as (E & Ht' & (_ & _ & _ & D1 & _) & Fr & Sd & _).
  split.
  - intros x Vx Nl Nk.
    rewrite (target_stat _ _ _ _ Ht' x Vx), (target_stat _ _ _ _ Ht x Vx).
    now apply Fr.
  - intros k y Vk Vy Nl Dk. unfold os_path_isdir in Dk.
    rewrite (target_stat _ _ _ _ Ht k Vk) in Dk.
    pose proof (D1 _ Dk) as Dk'.
    destruct (dict_find E0 k) as [n0|] eqn:F0; [|discriminate].
    destruct (dict_find E k) as [n1|] eqn:F1; [|discriminate].
    rewrite (target_stat2 _ _ _ _ Ht' k y n1 Vk Vy F1).
    rewrite (target_stat2 _ _ _ _ Ht k y n0 Vk Vy F0).
    apply Sd; [exact Nl|]. now rewrite F0.
Qed.

(** X10. Nothing outside the target directory changes, however the run
    ends: with keys that are directory names, a location that is neither
    inside the target directory nor on the way to it holds after the run
    the node it held before, and the working directory is the same. *)
Theorem nothing_outside_the_target_changes (a : args) (s s' : state)
  (o : outcome unit) (l : list string) (g : dict (list string))
  (T : location) :
  let pwd := folder_path a in
  wf_world (fs s) = true ->
  simulation a = false ->
  get_file_list pwd s = (Ok l, s) ->
  group_by_date strftime formats pwd l (date_string a) s = (Ok g, s) ->
  forallb valid_name (keys g) = true ->
  main strftime formats a s = (o, s') ->
  resolve (fs s) pwd = Some T ->
  cwd (fs s') = cwd (fs s)
  /\ forall q, is_prefix T q = false -> is_prefix q T = false ->
       get (root (fs s')) q = get (root (fs s)) q.
Proof.
  intros pwd W Sim Hl Hg Hkeys Run RT.
  destruct (main_move_any strftime formats a s s' o l g W Sim Hl Hg Hkeys Run)
    as (T' & E0 & pending & placed & Ht & Inv & _).
  fold pwd in Ht, Inv.
  assert (T' = T) by (destruct Ht as [R _]; congruence). subst T'.
  destruct Inv as (E & _ & _ & _ & _ & _ & So & Cw).
  split; [exact Cw|exact So].
Qed.

(** X11. A second run finds nothing to do, on a well-formed tree and
    with Group Keys that are directory names (non-empty, not [.] or [..],
    without [/]): after a successful run that is not a simulation,
    [get_file_list] on the same folder returns the empty list, and [main]
    with the same arguments prints nothing, moves nothing and returns. *)
Theorem second_run_does_nothing (a : args) (s s' : state)
  (l : list string) (g : dict (list string)) :
  let pwd := folder_path a in
  wf_world (fs s) = true ->
  simulation a = false ->
  get_file_list pwd s = (Ok l, s) ->
  group_by_date strftime formats pwd l (date_string a) s = (Ok g, s) ->
  forallb valid_name (keys g) = true ->
  main strftime formats a s = (Ok tt, s') ->
  get_file_list pwd s' = (Ok [], s')
  /\ main strftime formats a s' = (Ok tt, s').
Proof.
  intros pwd W Sim Hl Hg Hkeys Run.
  destruct (main_move_any strftime formats a s s' (Ok tt) l g W Sim Hl Hg Hkeys Run)
    as (T & E0 & pending & placed & Ht & Inv & Cov & Ho & El & Fl & Fp & Fk
        & _).
  fold pwd in Ht, Inv, El. specialize (Ho eq_refl). subst pending.
  destruct Inv as (E & Ht' & (_ & B & C & _) & Fr & _ & Nv & _).
  assert (Placed : forall k f, In (k, f) (pairs_of g) -> In (k, f) placed).
  { intros k f I. destruct (Cov k f I) as [[]|J]. exact J. }
  assert (Nl : forall x, In x (keys E) -> listed (fs s') pwd x = false).
  { intros x I. destruct (in_keys_find _ _ I) as [n Fx].
    pose proof (Nv _ _ Fx) as Vx.
    unfold listed, os_path_isfile.
    rewrite (target_stat _ _ _ _ Ht' x Vx).
    destruct (in_dec string_dec x l) as [Il|Nil].
    { destruct (Fl x Il) as (_ & t & _ & Ip).
      pose proof (C _ _ (Placed _ _ Ip)) as H. unfold is_file_opt in H.
      now rewrite H. }
    destruct (in_dec string_dec x (keys g)) as [Ik|Nik].
    { destruct (Fk x Ik) as [f Ip].
      destruct (B _ _ (Placed _ _ Ip)) as (t & _ & P).
      unfold entry2 in P. rewrite Fx in *.
      destruct n as [|m es|]; try discriminate. reflexivity. }
    rewrite (Fr x Nil Nik) in *.
    destruct (listed (fs s) pwd x) eqn:Lx.
    - exfalso. apply Nil. rewrite El. apply filter_In.
      split; [eapply dict_find_keys; eauto|exact Lx].
    - unfold listed, os_path_isfile in Lx.
      now rewrite (target_stat _ _ _ _ Ht x Vx) in Lx. }
  assert (G2 : get_file_list pwd s' = (Ok [], s')).
  { rewrite get_file_list_run.
    unfold os_path_exists, os_path_isfile, os_listdir, stat.
    destruct Ht' as [R [m G]]. rewrite R, G. simpl.
    now rewrite (filter_none _ _ Nl). }
  split; [exact G2|].
  assert (Sc : scan strftime formats a s' = (Ok [], s')).
  { unfold scan, bind. fold pwd. now rewrite G2. }
  rewrite (main_run_ok _ _ _ _ _ _ Sc), Sim. simpl.
  rewrite app_nil_r. now destruct s'.
Qed.

(** X12. Moving keeps the key, on a well-formed tree and with Group Keys
    that are directory names (non-empty, not [.] or [..], without [/]):
    after a successful run that is not a simulation, [get_file_time_str]
    on a moved file, taken at its new place [pwd/<key>], returns the key
    of the directory it was moved into. *)
Theorem moved_file_keeps_its_key (a : args) (s s' : state)
  (l : list string) (g : dict (list string)) :
  let pwd := folder_path a in
  wf_world (fs s) = true ->
  simulation a = false ->
  get_file_list pwd s = (Ok l, s) ->
  group_by_date strftime formats pwd l (date_string a) s = (Ok g, s) ->
  forallb valid_name (keys g) = true ->
  main strftime formats a s = (Ok tt, s') ->
  forall k ms f, In (k, ms) g -> In f ms ->
    get_file_time_str strftime formats (os_path_join pwd k) f (date_string a) s'
    = (Ok k, s').
Proof.
  intros pwd W Sim Hl Hg Hkeys Run k ms f Ig If.
  destruct (main_move_any strftime formats a s s' (Ok tt) l g W Sim Hl Hg Hkeys Run)
    as (T & E0 & pending & placed & Ht & Inv & Cov & Ho & _ & Fl & Fp & _
        & Ff).
  fold pwd in Ht, Inv. specialize (Ho eq_refl). subst pending.
  assert (Ip : In (k, f) (pairs_of g)) by (apply pairs_of_in; eauto).
  destruct (Fp _ _ Ip) as (Il & Vk & t & F0 & ->).
  destruct (Fl f Il) as (Vf & _).
  destruct Inv as (E & Ht' & (_ & B & _) & _).
  destruct (Cov _ _ Ip) as [[]|J].
  destruct (B _ _ J) as (t1 & F1 & P).
  assert (exists nk, dict_find E (strftime t (date_string a)) = Some nk)
    as [nk Fk].
  { unfold entry2 in P.
    destruct (dict_find E (strftime t (date_string a))); [eauto|].
    discriminate. }
  rewrite get_file_time_str_run. unfold time_key, os_path_getmtime.
  change (os_path_join (os_path_join pwd (strftime t (date_string a))) f)
    with (os_path_join3 pwd (strftime t (date_string a)) f).
  rewrite (target_stat2 _ _ _ _ Ht' _ f nk Vk Vf Fk), P. simpl.
  assert (t1 = t) by congruence. subst t1.
  now rewrite (Ff f t Il F0).
Qed.

End MoveSafety.

(* ================================================================== *)
(** * The further properties on the example folders *)
(* ================================================================== *)

Import MoreExamples.

Lemma get_file_list_returns_on_directories_only_example :
  get_file_list "u/pipe" s0 = (Raise OSError, s0)
  /\ os_path_isdir w0 "u" = true.
Proof.
  destruct (get_file_list_returns_on_directories_only "u/pipe" s0)
    as [_ H2].
  destruct (get_file_list_returns_on_directories_only "u" s0) as [[H1 _] _].
  split.
  - apply H2; vm_compute; reflexivity.
  - apply H1. exists listing0, s0. vm_compute. reflexivity.
Defined.


Lemma group_by_date_extends_example :
  exists g1,
    group_by_date Datetime.strftime_utc Datetime.formats_utc "u" ["a.txt"; "b.txt"] "%Y%m" s0
    = (Ok g1, s0)
    /\ starts_with (keys g1) (keys grouping0).
Proof.
  destruct (group_by_date_extends Datetime.strftime_utc Datetime.formats_utc "u"
              ["a.txt"; "b.txt"] ["Thumbs.db"; "c.txt"] "%Y%m" s0 grouping0)
    as (g1 & H1 & H2 & _).
  - vm_compute. reflexivity.
  - exists g1. split; assumption.
Defined.


Lemma do_move_refuses_key_that_is_no_directory_example :
  do_move "u" [("pipe", ["a.txt"; "b.txt"]); ("202401", ["c.txt"])] s0
  = (Raise OSError, s0).
Proof.
  apply do_move_refuses_key_that_is_no_directory; vm_compute; reflexivity.
Defined.

Lemma no_listed_file_is_lost_example :
  fst (main Datetime.strftime_utc Datetime.formats_utc args_move s_blocked) = Raise OSError
  /\ (forall f, In f listing_blocked ->
        exists t,
          stat w_blocked (os_path_join "u" f) = Some (File t)
          /\ (stat (fs (snd (main Datetime.strftime_utc Datetime.formats_utc args_move s_blocked)))
                (os_path_join "u" f) = Some (File t)
              \/ stat (fs (snd (main Datetime.strftime_utc Datetime.formats_utc args_move
                                  s_blocked)))
                   (os_path_join3 "u" (Datetime.strftime_utc t "%Y%m") f)
                 = Some (File t))).
Proof.
  split; [vm_compute; reflexivity|].
  apply (no_listed_file_is_lost Datetime.strftime_utc Datetime.formats_utc args_move s_blocked
           (snd (main Datetime.strftime_utc Datetime.formats_utc args_move s_blocked))
           (fst (main Datetime.strftime_utc Datetime.formats_utc args_move s_blocked))
           listing_blocked grouping_blocked);
    vm_compute; reflexivity.
Defined.

Lemma unlisted_entries_are_untouched_example :
  stat (fs (snd (main Datetime.strftime_utc Datetime.formats_utc args_move s_blocked)))
    (os_path_join "u" ".hidden")
  = Some (File t_feb)
  /\ stat (fs (snd (main Datetime.strftime_utc Datetime.formats_utc args_move s0)))
       (os_path_join3 "u" "sub" "inner.txt")
     = Some (File t_jan).
Proof.
  destruct (unlisted_entries_are_untouched Datetime.strftime_utc Datetime.formats_utc args_move
              s_blocked
              (snd (main Datetime.strftime_utc Datetime.formats_utc args_move s_blocked))
              (fst (main Datetime.strftime_utc Datetime.formats_utc args_move s_blocked))
              listing_blocked grouping_blocked)
    as [H1 _]; try (vm_compute; reflexivity).
  destruct (unlisted_entries_are_untouched Datetime.strftime_utc Datetime.formats_utc args_move
              s0 (snd (main Datetime.strftime_utc Datetime.formats_utc args_move s0)) (Ok tt)
              listing0 grouping0)
    as [_ H2]; try (vm_compute; reflexivity).
  split.
  - rewrite H1; [reflexivity|reflexivity| |].
    + simpl. intros [H|[H|[]]]; discriminate.
    + simpl. intros [H|[H|[]]]; discriminate.
  - rewrite H2; [reflexivity|reflexivity|reflexivity| |reflexivity].
    simpl. intros [H|[H|[H|[H|[]]]]]; discriminate.
Defined.

Lemma nothing_outside_the_target_changes_example :
  cwd (fs (snd (main Datetime.strftime_utc Datetime.formats_utc args_move s_blocked))) = ["home"]
  /\ get (root (fs (snd (main Datetime.strftime_utc Datetime.formats_utc args_move s_blocked))))
       ["home"; "v"; "keep.txt"]
     = Some (File t_jan).
Proof.
  destruct (nothing_outside_the_target_changes Datetime.strftime_utc Datetime.formats_utc
              args_move s_blocked
              (snd (main Datetime.strftime_utc Datetime.formats_utc args_move s_blocked))
              (fst (main Datetime.strftime_utc Datetime.formats_utc args_move s_blocked))
              listing_blocked grouping_blocked ["home"; "u"])
    as [H1 H2]; try (vm_compute; reflexivity).
  split; [exact H1|].
  rewrite H2; reflexivity.
Defined.

Lemma second_run_does_nothing_example :
  main Datetime.strftime_utc Datetime.formats_utc args_move
    (snd (main Datetime.strftime_utc Datetime.formats_utc args_move s0))
  = (Ok tt, snd (main Datetime.strftime_utc Datetime.formats_utc args_move s0)).
Proof.
  apply (second_run_does_nothing Datetime.strftime_utc Datetime.formats_utc args_move s0
           (snd (main Datetime.strftime_utc Datetime.formats_utc args_move s0))
           listing0 grouping0); try (vm_compute; reflexivity).
Defined.

Lemma moved_file_keeps_its_key_example :
  get_file_time_str Datetime.strftime_utc Datetime.formats_utc (os_path_join "u" "202402")
    "Thumbs.db" "%Y%m" (snd (main Datetime.strftime_utc Datetime.formats_utc args_move s0))
  = (Ok "202402", snd (main Datetime.strftime_utc Datetime.formats_utc args_move s0)).
Proof.
  apply (moved_file_keeps_its_key Datetime.strftime_utc Datetime.formats_utc args_move s0
           (snd (main Datetime.strftime_utc Datetime.formats_utc args_move s0))
           listing0 grouping0) with (ms := ["b.txt"; "Thumbs.db"]);
    try (vm_compute; reflexivity); simpl; tauto.
Defined.
